(** * A shallow embedding of the phpMyAdmin table scraper (main.py)

    The development follows the class [PhpMyAdminScraper]:
    - Python [str] values are [string]s, one [ascii] per character;
    - the payload [dict] of the login form is a [gmap string string];
    - the tree that [BeautifulSoup(..., "html.parser")] hands back is the
      inductive type [node]; the library calls the scraper makes on it
      ([find], [find_all], [get_text(strip=True)], [attrs]) are functions
      on that tree;
    - the methods that talk to the network, the log and the console run in
      a small monad [M] that records every effect in a trace and either
      returns or raises.

    What lies outside the class is a [world]: the answers of the server,
    the parser, the console and the closing of the session. Requests,
    [print] and [close] may raise any exception; the parser builds a tree
    or rejects the markup; reading [response.text] and logging do not
    raise.
    The constructor, [_setup_session] and the statements of the module
    around the class are modelled after the class, over a [host]. *)

From Stdlib Require Import String Ascii ZArith List Bool Lia.
From stdpp Require Import base option list gmap strings.

Open Scope string_scope.
Open Scope list_scope.

(** ** Python strings *)

Module Str.

(** [p] is a prefix of [s] ([s.startswith(p)]). *)
Fixpoint startswith (p s : string) : bool :=
  match p, s with
  | EmptyString, _ => true
  | String a p', String b s' => Ascii.eqb a b && startswith p' s'
  | String _ _, EmptyString => false
  end.

(** [needle in hay]: some suffix of [hay] starts with [needle]. *)
Fixpoint contains (needle hay : string) : bool :=
  startswith needle hay ||
  match hay with
  | EmptyString => false
  | String _ hay' => contains needle hay'
  end.

(** The mathematical notion of a substring. *)
Definition substring_of (needle hay : string) : Prop :=
  exists pre post : string, hay = pre +:+ needle +:+ post.

(** [str.isspace] on one character: the white space of Python below
    code point 256. *)
Definition isspace (c : ascii) : bool :=
  let n := nat_of_ascii c in
  (((9 <=? n) && (n <=? 13)) || ((28 <=? n) && (n <=? 32))
   || (n =? 133) || (n =? 160))%nat.

Fixpoint lstrip (s : string) : string :=
  match s with
  | EmptyString => EmptyString
  | String c s' => if isspace c then lstrip s' else s
  end.

Fixpoint rstrip (s : string) : string :=
  match s with
  | EmptyString => EmptyString
  | String c s' =>
      match rstrip s' with
      | EmptyString => if isspace c then EmptyString else String c EmptyString
      | r => String c r
      end
  end.

(** [s.strip()] *)
Definition strip (s : string) : string := lstrip (rstrip s).

(** [sep.join(l)] *)
Fixpoint join (sep : string) (l : list string) : string :=
  match l with
  | [] => EmptyString
  | [x] => x
  | x :: l' => x +:+ sep +:+ join sep l'
  end.

(** [c * n] for a one-character string [c]; a count below one gives the
    empty string, as in Python. *)
Definition repeat_char (c : ascii) (n : Z) : string :=
  string_of_list_ascii (repeat c (Z.to_nat n)).

(** The maximal runs of non-space characters of [s], in order
    ([re.findall(r"\S+", s)]). [cur] is the run being read, reversed. *)
Fixpoint tokens_aux (cur : list ascii) (s : string) : list string :=
  let flush := match cur with
               | [] => []
               | _ => [string_of_list_ascii (rev cur)]
               end in
  match s with
  | EmptyString => flush
  | String c s' =>
      if isspace c then flush ++ tokens_aux [] s'
      else tokens_aux (c :: cur) s'
  end.

Definition tokens (s : string) : list string := tokens_aux [] s.

End Str.

(** ** The parse tree of BeautifulSoup

    A document is a tree of tags, text and comments. Tag and attribute
    names arrive lower-cased from [html.parser]; [attrs] keeps the source
    text of each attribute value, a repeated attribute keeping its last
    value. *)

#[warnings="-register-all"]
Inductive node : Type :=
| NavigableString (text : string)
| Comment (text : string)
| Tag (name : string) (attrs : gmap string string) (contents : list node).

Module Soup.

Definition attrs_of (n : node) : gmap string string :=
  match n with Tag _ a _ => a | _ => ∅ end.

(** [tag.descendants]: everything below [n], in document order. *)
Fixpoint descendants (n : node) : list node :=
  match n with
  | Tag _ _ cs =>
      (fix below (l : list node) : list node :=
         match l with
         | [] => []
         | c :: l' => c :: descendants c ++ below l'
         end) cs
  | _ => []
  end.

(** Attributes whose value BeautifulSoup splits into a list of tokens
    on every tag. *)
Definition multi_valued (key : string) : bool :=
  String.eqb key "class" || String.eqb key "accesskey"
  || String.eqb key "dropzone".

(** One entry [{key: want}] of an attribute filter. A multi-valued
    attribute matches when one of its tokens is [want], or when its
    tokens joined by a blank are; any other attribute when its value is
    [want]. *)
Definition attr_matches (a : gmap string string) (kv : string * string)
  : bool :=
  let '(key, want) := kv in
  match a !! key with
  | None => false
  | Some v =>
      if multi_valued key then
        existsb (String.eqb want) (Str.tokens v)
        || String.eqb (Str.join " " (Str.tokens v)) want
      else String.eqb v want
  end.

Definition matches (nm : string) (filter : list (string * string))
           (n : node) : bool :=
  match n with
  | Tag nm' a _ => String.eqb nm' nm && forallb (attr_matches a) filter
  | _ => false
  end.

(** [tag.find_all(nm, filter)] *)
Definition find_all (n : node) (nm : string)
           (filter : list (string * string)) : list node :=
  List.filter (matches nm filter) (descendants n).

(** [tag.find(nm, filter)]: the first match, or [None]. *)
Definition find (n : node) (nm : string)
           (filter : list (string * string)) : option node :=
  head (find_all n nm filter).

(** The strings [get_text] walks over: text nodes, not comments. *)
Definition strings (n : node) : list string :=
  omap (fun d => match d with
                 | NavigableString s => Some s
                 | _ => None
                 end) (descendants n).

(** [tag.get_text()] *)
Definition get_text (n : node) : string :=
  Str.join "" (strings n).

(** [tag.get_text(strip=True)]: every string is stripped on its own,
    the ones left empty are skipped, the rest are concatenated. *)
Definition get_text_strip (n : node) : string :=
  Str.join ""
    (List.filter (fun s => negb (String.eqb s ""))
       (map Str.strip (strings n))).

End Soup.

(** ** Exceptions, effects and the world outside the scraper *)

(** The exception classes the scraper tells apart. [HTTPError] is what
    [raise_for_status] raises and is a [requests.RequestException];
    [RequestException] stands for the other members of that class
    (connection errors, timeouts); [ParserRejectedMarkup] is what the
    parser raises on markup it cannot handle, a subclass of [Exception];
    [OtherException] stands for any further subclass of [Exception];
    [KeyboardInterrupt] derives from [BaseException] only. *)
Inductive exn : Type :=
| HTTPError (status : Z)
| RequestException
| ValueError
| AttributeError
| ParserRejectedMarkup
| OtherException
| KeyboardInterrupt.

(** [isinstance(e, requests.RequestException)] *)
Definition is_RequestException (e : exn) : bool :=
  match e with
  | HTTPError _ | RequestException => true
  | _ => false
  end.

(** [isinstance(e, Exception)] *)
Definition is_Exception (e : exn) : bool :=
  match e with
  | KeyboardInterrupt => false
  | _ => true
  end.

Inductive level : Type := DEBUG | INFO | WARNING | ERROR | CRITICAL.

(** One constructor per logging call of the class, with the values the
    message interpolates. *)
Inductive message : Type :=
| FetchingLoginPage
| LoginFormMissing
| FormDataDump (form_data : gmap string string)
| LoginFormRequestFailed (e : exn)
| LoginFormUnexpected (e : exn)
| AuthFailed
| AuthSucceeded
| AuthCheckFailed (e : exn)
| TableNotFound
| RowsParsed (n : nat)
| ParseFailed (e : exn)
| ResultsPrinted
| PrintFailed (e : exn)
| SendingCredentials
| AuthRequestFailed (e : exn)
| FetchingTable (table : string)
| TableRequestFailed (e : exn)
| CriticalFailure (e : exn)
| SessionClosed
| SessionCloseFailed (e : exn).

(** What one call of [print] writes: the fixed banner of the results, or
    a line of text. *)
Inductive printed : Type :=
| Banner
| Line (s : string).

Record response : Type := { status_code : Z; text : string }.

Inductive event : Type :=
| Get (url : string)
| Post (url : string) (data : gmap string string)
| Print (x : printed)
| Log (l : level) (m : message)
| Close.

(** Everything the scraper does not decide itself. *)
Record world : Type := {
  session_get : string -> exn + response;
  session_post : string -> gmap string string -> exn + response;
  BeautifulSoup : string -> option node;
  stdout : printed -> option exn;
  session_close : option exn
}.

Inductive outcome (A : Type) : Type :=
| Return (a : A)
| Raise (e : exn).
Arguments Return {A} a.
Arguments Raise {A} e.

(** A computation: the effects it had, and how it ended. *)
Definition M (A : Type) : Type := (list event * outcome A)%type.

Definition trace {A} (m : M A) : list event := fst m.
Definition result {A} (m : M A) : outcome A := snd m.

Definition ret {A} (a : A) : M A := ([], Return a).
Definition raise {A} (e : exn) : M A := ([], Raise e).
Definition emit (ev : event) : M unit := ([ev], Return tt).

Definition bind {A B} (m : M A) (k : A -> M B) : M B :=
  match m with
  | (t, Return a) => let '(t', r) := k a in (t ++ t', r)
  | (t, Raise e) => (t, Raise e)
  end.

#[global] Instance M_ret : MRet M := @ret.
#[global] Instance M_bind : MBind M := fun A B k m => bind m k.

(** One [except] clause: the class test and the handler. *)
Definition clause (A : Type) : Type := ((exn -> bool) * (exn -> M A))%type.

Fixpoint select {A} (handlers : list (clause A)) (e : exn)
  : option (exn -> M A) :=
  match handlers with
  | [] => None
  | (test, h) :: rest => if test e then Some h else select rest e
  end.

(** [try: m  except ...: ...  else: k]. The first clause whose class
    contains the exception handles it; what a handler or [k] raises is not
    handled here. *)
Definition try_except_else {A B} (m : M A) (handlers : list (clause B))
           (k : A -> M B) : M B :=
  match m with
  | (t, Return a) => let '(t', r) := k a in (t ++ t', r)
  | (t, Raise e) =>
      match select handlers e with
      | Some h => let '(t', r) := h e in (t ++ t', r)
      | None => (t, Raise e)
      end
  end.

Definition try_except {A} (m : M A) (handlers : list (clause A)) : M A :=
  try_except_else m handlers ret.

(** [try: m  finally: f]. [f] runs however [m] ended; the outcome is that
    of [m] unless [f] raises. *)
Definition try_finally {A} (m : M A) (f : M unit) : M A :=
  let '(t, r) := m in
  let '(t', r') := f in
  (t ++ t', match r' with Raise e => Raise e | Return _ => r end).

(** [for x in l: body x] *)
Fixpoint for_each {A} (l : list A) (body : A -> M unit) : M unit :=
  match l with
  | [] => ret tt
  | x :: l' => body x ;; for_each l' body
  end.

Definition log (l : level) (m : message) : M unit := emit (Log l m).

Section World.

Variable w : world.

(** [session.get(url)] *)
Definition get (url : string) : M response :=
  emit (Get url) ;;
  match session_get w url with
  | inl e => raise e
  | inr r => ret r
  end.

(** [session.post(url, data=data)] *)
Definition post (url : string) (data : gmap string string) : M response :=
  emit (Post url data) ;;
  match session_post w url data with
  | inl e => raise e
  | inr r => ret r
  end.

(** [print(x)] *)
Definition print (x : printed) : M unit :=
  match stdout w x with
  | Some e => raise e
  | None => emit (Print x)
  end.

(** [BeautifulSoup(html, "html.parser")]: the tree, or the parser's
    exception when it rejects the markup. *)
Definition html_parser (html : string) : M node :=
  match BeautifulSoup w html with
  | Some soup => ret soup
  | None => raise ParserRejectedMarkup
  end.

(** [session.close()] *)
Definition close : M unit :=
  emit Close ;;
  match session_close w with
  | Some e => raise e
  | None => ret tt
  end.

End World.

(** [response.raise_for_status()] *)
Definition raise_for_status (r : response) : M unit :=
  if ((400 <=? status_code r) && (status_code r <? 600))%Z
  then raise (HTTPError (status_code r))
  else ret tt.

(** Calling a method on the result of a [find] that may be [None]. *)
Definition deref {A} (o : option A) : M A :=
  match o with
  | Some a => ret a
  | None => raise AttributeError
  end.

(** ** The class PhpMyAdminScraper *)

Record scraper : Type := {
  base_url : string;
  username : string;
  password : string;
  db_name : string;
  table_name : string
}.

Module Scraper.

Section Methods.

Variable self : scraper.
Variable w : world.

Definition login_url : string := base_url self +:+ "index.php?route=/".

Definition table_url : string :=
  base_url self +:+ "index.php?route=/sql&db=" +:+ db_name self
  +:+ "&table=" +:+ table_name self.

(** The body of the loop over the hidden inputs. *)
Definition add_hidden (form_data : gmap string string) (hidden : node)
  : gmap string string :=
  match Soup.attrs_of hidden !! "name", Soup.attrs_of hidden !! "value" with
  | Some name, Some value => <[name := value]> form_data
  | _, _ => form_data
  end.

(** The payload built from a login form that was found. *)
Definition form_data_of (login_form : node) : gmap string string :=
  fold_left add_hidden
    (Soup.find_all login_form "input" [("type", "hidden")])
    (<["pma_password" := password self]>
       (<["pma_username" := username self]> ∅)).

Definition _get_login_form_data : M (gmap string string) :=
  try_except
    (log INFO FetchingLoginPage ;;
     response ← get w login_url ;
     raise_for_status response ;;
     soup ← html_parser w (text response) ;
     match Soup.find soup "form" [("id", "login_form")] with
     | None => log ERROR LoginFormMissing ;; raise ValueError
     | Some login_form =>
         let form_data := form_data_of login_form in
         log DEBUG (FormDataDump form_data) ;;
         ret form_data
     end)
    [ (is_RequestException,
       fun e => log ERROR (LoginFormRequestFailed e) ;; raise e);
      (is_Exception,
       fun e => log ERROR (LoginFormUnexpected e) ;; raise e) ].

Definition _check_auth_success (response : response) : M bool :=
  try_except
    (if negb (Str.contains "frame_navigation" (text response))
        && negb (Str.contains "pma_navigation_tree" (text response))
     then log WARNING AuthFailed ;; ret false
     else log INFO AuthSucceeded ;; ret true)
    [ (is_Exception, fun e => log ERROR (AuthCheckFailed e) ;; ret false) ].

(** The text taken for one header cell. *)
Definition header_text (th : node) : string :=
  match Soup.find th "a" [] with
  | Some a => Soup.get_text_strip a
  | None => Soup.get_text_strip th
  end.

(** The loop that fills [headers]. *)
Definition collect_headers (header_cells : list node) : list string :=
  fold_left (fun headers th => headers ++ [header_text th]) header_cells [].

(** The cells kept for one row. *)
Definition row_data (tr : node) : list string :=
  map Soup.get_text_strip (drop 4 (Soup.find_all tr "td" [])).

(** The loop that fills [rows]. *)
Definition collect_rows (trs : list node) : list (list string) :=
  fold_left (fun rows tr => rows ++ [row_data tr]) trs [].

(** The statements inside the [try] of [_parse_table_data]. *)
Definition parse_table_body (html : string)
  : M (option (list string) * option (list (list string))) :=
  soup ← html_parser w html ;
  match Soup.find soup "table" [("class", "table_results")] with
  | None => log WARNING TableNotFound ;; ret (None, None)
  | Some results_table =>
      let headers :=
        collect_headers
          (Soup.find_all results_table "th" [("class", "column_heading")]) in
      tbody ← deref (Soup.find results_table "tbody" []) ;
      let rows := collect_rows (Soup.find_all tbody "tr" []) in
      log INFO (RowsParsed (length rows)) ;;
      ret (Some headers, Some rows)
  end.

Definition _parse_table_data (html : string)
  : M (option (list string) * option (list (list string))) :=
  try_except (parse_table_body html)
    [ (is_Exception,
       fun e => log ERROR (ParseFailed e) ;; ret (None, None)) ].

(** [sum(len(h) for h in headers) + 3 * (len(headers) - 1)] *)
Definition separator_width (headers : list string) : Z :=
  (fold_left (fun acc h => acc + Z.of_nat (String.length h)) headers 0
   + 3 * (Z.of_nat (length headers) - 1))%Z.

Definition _print_results (headers : list string) (rows : list (list string))
  : M unit :=
  try_except
    (print w Banner ;;
     print w (Line (Str.join " | " headers)) ;;
     print w (Line (Str.repeat_char "-" (separator_width headers))) ;;
     for_each rows (fun row => print w (Line (Str.join " | " row))) ;;
     log INFO ResultsPrinted)
    [ (is_Exception, fun e => log ERROR (PrintFailed e) ;; raise e) ].

(** Truth value of a list: empty is false. *)
Definition truthy {A} (l : list A) : bool :=
  match l with [] => false | _ => true end.

(** The login request and its status check (first inner [try]). *)
Definition login_request (form_data : gmap string string) : M response :=
  response ← post w login_url form_data ;
  raise_for_status response ;;
  ret response.

(** The table request and its status check (second inner [try]). *)
Definition table_request : M response :=
  response ← get w table_url ;
  raise_for_status response ;;
  ret response.

(** The statements of [run] inside its outer [try]. A [return] ends the
    body with [ret tt]. *)
Definition run_body : M unit :=
  form_data ← _get_login_form_data ;
  log INFO SendingCredentials ;;
  try_except_else (login_request form_data)
    [ (is_RequestException,
       fun e => log ERROR (AuthRequestFailed e) ;; ret tt) ]
    (fun response =>
       ok ← _check_auth_success response ;
       if negb ok then ret tt
       else
         log INFO (FetchingTable (table_name self)) ;;
         try_except_else table_request
           [ (is_RequestException,
              fun e => log ERROR (TableRequestFailed e) ;; ret tt) ]
           (fun response =>
              parsed ← _parse_table_data (text response) ;
              match parsed with
              | (Some headers, Some rows) =>
                  if truthy headers && truthy rows
                  then _print_results headers rows
                  else ret tt
              | _ => ret tt
              end)).

(** The outer [try] with its [except Exception] clause. *)
Definition run_handled : M unit :=
  try_except run_body
    [ (is_Exception, fun e => log CRITICAL (CriticalFailure e)) ].

(** The [finally] block. *)
Definition run_finally : M unit :=
  try_except
    (close w ;; log INFO SessionClosed)
    [ (is_Exception, fun e => log ERROR (SessionCloseFailed e)) ].

Definition run : M unit := try_finally run_handled run_finally.

End Methods.

End Scraper.

(** ** Notions used to state the properties *)

(** The name/value pair of a hidden input that carries both attributes. *)
Definition hidden_pair (hidden : node) : option (string * string) :=
  match Soup.attrs_of hidden !! "name", Soup.attrs_of hidden !! "value" with
  | Some name, Some value => Some (name, value)
  | _, _ => None
  end.

(** The name/value pairs of the hidden inputs of a login form, in document
    order. *)
Definition hidden_pairs (login_form : node) : list (string * string) :=
  omap hidden_pair (Soup.find_all login_form "input" [("type", "hidden")]).

(** The two credential entries of the payload. *)
Definition credentials (self : scraper) : gmap string string :=
  {[ "pma_username" := username self; "pma_password" := password self ]}.

(** The text of an element trimmed as a whole: all its text, with the
    white space around it removed. *)
Definition trimmed_text (n : node) : string := Str.strip (Soup.get_text n).

(** The header of a cell read with [trimmed_text]. *)
Definition trimmed_header_text (th : node) : string :=
  match Soup.find th "a" [] with
  | Some a => trimmed_text a
  | None => trimmed_text th
  end.

(** The row elements inside the [tbody] elements of a table. *)
Definition body_rows (table : node) : list node :=
  flat_map (fun tbody => Soup.find_all tbody "tr" [])
           (Soup.find_all table "tbody" []).

Definition is_Close (ev : event) : bool :=
  match ev with Close => true | _ => false end.

(** How many times a trace closes the session. *)
Definition closes (t : list event) : nat := length (List.filter is_Close t).

(** The events only [_print_results] produces. *)
Definition presenter_event (ev : event) : bool :=
  match ev with
  | Print _ => true
  | Log _ ResultsPrinted => true
  | Log _ (PrintFailed _) => true
  | _ => false
  end.

(** Every event of a computation satisfies [P]. *)
Definition all_events {A} (P : event -> bool) (m : M A) : Prop :=
  forallb P (trace m) = true.

Definition not_Close (ev : event) : bool := negb (is_Close ev).

Definition not_presenter (ev : event) : bool := negb (presenter_event ev).

(** A status [raise_for_status] lets through. *)
Definition status_ok (r : response) : Prop :=
  ((400 <=? status_code r) && (status_code r <? 600))%Z = false.

(** ** Sample documents and worlds *)

Module Samples.

Definition el (nm : string) (a : list (string * string)) (cs : list node)
  : node := Tag nm (list_to_map a) cs.

Definition hidden_input (name value : string) : node :=
  el "input" [("type", "hidden"); ("name", name); ("value", value)] [].

Definition td (s : string) : node := el "td" [] [NavigableString s].

Definition th_link (s : string) : node :=
  el "th" [("class", "draggable column_heading pointer")]
     [el "a" [("href", "#")] [NavigableString s]].

Definition document (cs : list node) : node := el "[document]" [] cs.

(** A login page with one hidden token. *)
Definition login_page : node :=
  document
    [el "form" [("id", "login_form")]
        [hidden_input "csrf" "xyz";
         el "input" [("type", "text"); ("name", "pma_username")] [];
         el "input" [("type", "hidden"); ("name", "orphan")] []]].

(** A login form in which two hidden inputs share a name. *)
Definition login_form_repeated : node :=
  el "form" [("id", "login_form")]
     [hidden_input "token" "a"; hidden_input "token" "b"].

Definition login_page_repeated : node := document [login_form_repeated].

(** The results table of the specification: four linked headers, one body
    row of six cells. *)
Definition results_page : node :=
  document
    [el "table" [("class", "table table_results ajax")]
        [el "thead" []
            [el "tr" [] [th_link "ID"; th_link "Name"; th_link " Email";
                         th_link "Created"]];
         el "tbody" []
            [el "tr" [] [td "edit"; td "copy"; td "delete"; td "";
                         td " 42 "; td "Alice"]]]].

(** Headers, an empty body. *)
Definition empty_body_page : node :=
  document
    [el "table" [("class", "table_results")]
        [el "thead" [] [el "tr" [] [th_link "ID"; th_link "Name"]];
         el "tbody" [] []]].

(** Headers and a row, but no [tbody] element. *)
Definition no_tbody_page : node :=
  document
    [el "table" [("class", "table_results")]
        [el "tr" [] [th_link "ID"; th_link "Name"];
         el "tr" [] [td "edit"; td "copy"; td "delete"; td "";
                     td "42"; td "Alice"]]].

(** Headers only, and no [tbody] element. *)
Definition headers_only_page : node :=
  document
    [el "table" [("class", "table_results")]
        [el "thead" [] [el "tr" [] [th_link "ID"; th_link "Name"]]]].

(** A header whose link holds markup. *)
Definition nested_markup_page : node :=
  document
    [el "table" [("class", "table_results")]
        [el "thead" []
            [el "tr" []
                [el "th" [("class", "column_heading")]
                    [el "a" [] [NavigableString "First ";
                                el "b" [] [NavigableString "Name"]]]]];
         el "tbody" [] []]].

(** Headers without any cell of class [column_heading], one row. *)
Definition no_heading_page : node :=
  document
    [el "table" [("class", "table_results")]
        [el "tbody" []
            [el "tr" [] [td "edit"; td "copy"; td "delete"; td "";
                         td "42"]]]].

Definition self : scraper :=
  {| base_url := "http://pma.test/"; username := "root";
     password := "secret"; db_name := "shop"; table_name := "users" |}.

Definition ok (body : string) : exn + response :=
  inr {| status_code := 200; text := body |}.

(** A server that serves [login] as the login page, accepts the login and
    serves [table] as the table view. Page bodies are named, and the
    parser maps each name to its tree. *)
Definition serving (login table : node) : world :=
  {| session_get := fun url =>
       if String.eqb url (Scraper.login_url self) then ok "login"
       else ok "table";
     session_post := fun _ _ => ok "<div id='pma_navigation_tree'>";
     BeautifulSoup := fun html =>
       if String.eqb html "login" then Some login else Some table;
     stdout := fun _ => None;
     session_close := None |}.

Definition happy : world := serving login_page results_page.
Definition repeated_name : world := serving login_page_repeated results_page.
Definition empty_body : world := serving login_page empty_body_page.
Definition no_tbody : world := serving login_page no_tbody_page.
Definition headers_only : world := serving login_page headers_only_page.
Definition nested_markup : world := serving login_page nested_markup_page.
Definition no_heading : world := serving login_page no_heading_page.

(** The parser rejects the markup of the table page. *)
Definition table_rejected : world :=
  {| session_get := session_get happy;
     session_post := session_post happy;
     BeautifulSoup := fun html =>
       if String.eqb html "login" then Some login_page else None;
     stdout := stdout happy;
     session_close := session_close happy |}.

(** The parser rejects the markup of the login page, which holds a login
    form. *)
Definition login_rejected_markup : world :=
  {| session_get := session_get happy;
     session_post := session_post happy;
     BeautifulSoup := fun html =>
       if String.eqb html "login" then None else Some results_page;
     stdout := stdout happy;
     session_close := session_close happy |}.

(** The login POST is answered with status 500. *)
Definition login_rejected : world :=
  {| session_get := session_get happy;
     session_post := fun _ _ =>
       inr {| status_code := 500; text := "" |};
     BeautifulSoup := BeautifulSoup happy;
     stdout := stdout happy;
     session_close := session_close happy |}.

(** The table GET fails on the network. *)
Definition table_unreachable : world :=
  {| session_get := fun url =>
       if String.eqb url (Scraper.login_url self) then ok "login"
       else inl RequestException;
     session_post := session_post happy;
     BeautifulSoup := BeautifulSoup happy;
     stdout := stdout happy;
     session_close := session_close happy |}.

(** The login page cannot be fetched. *)
Definition offline : world :=
  {| session_get := fun _ => inl RequestException;
     session_post := session_post happy;
     BeautifulSoup := BeautifulSoup happy;
     stdout := stdout happy;
     session_close := session_close happy |}.

(** The run is interrupted from the keyboard during the login POST, and
    closing the session fails. *)
Definition interrupted : world :=
  {| session_get := session_get happy;
     session_post := fun _ _ => inl KeyboardInterrupt;
     BeautifulSoup := BeautifulSoup happy;
     stdout := stdout happy;
     session_close := Some OtherException |}.

End Samples.

(** ** Further notions *)

Definition is_request (ev : event) : bool :=
  match ev with Get _ | Post _ _ => true | _ => false end.

Definition not_request (ev : event) : bool := negb (is_request ev).

(** The HTTP requests of a trace, in order. *)
Definition requests (t : list event) : list event := List.filter is_request t.

(** Every exception a computation can end with satisfies [P]. *)
Definition raises_only {A} (P : exn -> bool) (m : M A) : Prop :=
  forall e, result m = Raise e -> P e = true.

(** A world in which whatever is raised derives from [Exception]. *)
Definition only_Exceptions (w : world) : Prop :=
  (forall url e, session_get w url = inl e -> is_Exception e = true)
  /\ (forall url data e,
         session_post w url data = inl e -> is_Exception e = true)
  /\ (forall x e, stdout w x = Some e -> is_Exception e = true)
  /\ (forall e, session_close w = Some e -> is_Exception e = true).

(** What [_print_results] sets out to print, in order. *)
Definition output_lines (headers : list string) (rows : list (list string))
  : list printed :=
  [Banner;
   Line (Str.join " | " headers);
   Line (Str.repeat_char "-" (Scraper.separator_width headers))]
  ++ map (fun row => Line (Str.join " | " row)) rows.

Module MoreSamples.

(** A body row with three cells and one with five. *)
Definition short_row_page : node :=
  Samples.document
    [Samples.el "table" [("class", "table_results")]
        [Samples.el "tbody" []
            [Samples.el "tr" []
                [Samples.td "edit"; Samples.td "copy"; Samples.td "delete"];
             Samples.el "tr" []
                [Samples.td "edit"; Samples.td "copy"; Samples.td "delete";
                 Samples.td ""; Samples.td "7"]]]].

Definition short_row : world :=
  Samples.serving Samples.login_page short_row_page.

(** The login is answered with a page that shows the login form again. *)
Definition wrong_password : world :=
  {| session_get := session_get Samples.happy;
     session_post := fun _ _ => Samples.ok "<form id='login_form'>";
     BeautifulSoup := BeautifulSoup Samples.happy;
     stdout := stdout Samples.happy;
     session_close := session_close Samples.happy |}.

(** The console rejects the separator line. *)
Definition console_breaks : world :=
  {| session_get := session_get Samples.happy;
     session_post := session_post Samples.happy;
     BeautifulSoup := BeautifulSoup Samples.happy;
     stdout := fun x =>
       match x with
       | Line (String "-" _) => Some OtherException
       | _ => None
       end;
     session_close := session_close Samples.happy |}.

(** Closing the session fails. *)
Definition close_fails : world :=
  {| session_get := session_get Samples.happy;
     session_post := session_post Samples.happy;
     BeautifulSoup := BeautifulSoup Samples.happy;
     stdout := stdout Samples.happy;
     session_close := Some OtherException |}.

(** Closing the session is interrupted from the keyboard. *)
Definition close_interrupted : world :=
  {| session_get := session_get Samples.happy;
     session_post := session_post Samples.happy;
     BeautifulSoup := BeautifulSoup Samples.happy;
     stdout := stdout Samples.happy;
     session_close := Some KeyboardInterrupt |}.

End MoreSamples.

(** ** The constructor and the script

    The headers of a [requests.Session] are a [CaseInsensitiveDict]: it
    keeps, under the lower-cased name, the name as last written and the
    value. The constructor and the statements of the module have effects
    of their own, recorded as [script_event]s; the effects of [run] appear
    among them as [ScraperEvent]s. *)

Module Headers.

(** [c.lower()] for one character below code point 256. *)
Definition lower_char (c : ascii) : ascii :=
  let n := nat_of_ascii c in
  if (((65 <=? n) && (n <=? 90))
      || ((192 <=? n) && (n <=? 222) && negb (n =? 215)))%nat
  then ascii_of_nat (n + 32)
  else c.

Fixpoint lower (s : string) : string :=
  match s with
  | EmptyString => EmptyString
  | String c s' => String (lower_char c) (lower s')
  end.

(** [headers[key] = value] *)
Definition setitem (key value : string) (h : gmap string (string * string))
  : gmap string (string * string) :=
  <[lower key := (key, value)]> h.

(** [headers.get(key)] *)
Definition getitem (key : string) (h : gmap string (string * string))
  : option string :=
  snd <$> h !! lower key.

(** [headers.update(items)]: one assignment per item, in order. *)
Definition update (items : list (string * string))
           (h : gmap string (string * string))
  : gmap string (string * string) :=
  fold_left (fun h kv => setitem kv.1 kv.2 h) items h.

End Headers.

Inductive setup_message : Type :=
| SessionConfigured
| SessionSetupFailed (e : exn).

Inductive script_event : Type :=
| ConfigRead (key : string)
| SessionCreated
| LoggingConfigured
| SetupLog (l : level) (m : setup_message)
| TopLevelCritical (e : exn)
| ScraperEvent (ev : event).

(** What the script finds around it: the [.env] repository, the values
    it holds, whether the log file can be set up, the headers of a fresh
    session, and the world that session talks to. *)
Record host : Type := {
  repository_env : option exn;
  config : string -> exn + string;
  logging_basicConfig : option exn;
  session_headers : gmap string (string * string);
  session_world : world
}.

(** A computation of the script. *)
Definition P (A : Type) : Type := (list script_event * outcome A)%type.

Definition p_trace {A} (m : P A) : list script_event := fst m.
Definition p_result {A} (m : P A) : outcome A := snd m.

Definition p_ret {A} (a : A) : P A := ([], Return a).
Definition p_raise {A} (e : exn) : P A := ([], Raise e).
Definition p_emit (ev : script_event) : P unit := ([ev], Return tt).

Definition p_bind {A B} (m : P A) (k : A -> P B) : P B :=
  match m with
  | (t, Return a) => let '(t', r) := k a in (t ++ t', r)
  | (t, Raise e) => (t, Raise e)
  end.

#[global] Instance P_bind : MBind P := fun A B k m => p_bind m k.

(** [try: m  except ...: ...] in the script. *)
Definition p_try_except {A} (m : P A)
           (handlers : list ((exn -> bool) * (exn -> P A))) : P A :=
  match m with
  | (t, Return a) => (t, Return a)
  | (t, Raise e) =>
      match List.find (fun c => c.1 e) handlers with
      | Some (_, h) => let '(t', r) := h e in (t ++ t', r)
      | None => (t, Raise e)
      end
  end.

(** A call of a method of the scraper from the script. *)
Definition lift {A} (m : M A) : P A := (ScraperEvent <$> trace m, result m).

(** The object the constructor builds: its configuration and the headers
    of its session. *)
Record instance : Type := {
  self_of : scraper;
  headers_of : gmap string (string * string)
}.

Module Script.

Definition user_agent : string :=
  "Mozilla/5.0 (Windows NT 10.0; Win64; x64) AppleWebKit/537.36 (KHTML, like Gecko) Chrome/91.0.4472.124 Safari/537.36".

Definition accept : string :=
  "text/html,application/xhtml+xml,application/xml;q=0.9,image/webp,*/*;q=0.8".

(** The dictionary passed to [headers.update]. *)
Definition default_headers (self : scraper) : list (string * string) :=
  [ ("User-Agent", user_agent);
    ("Referer", Scraper.login_url self);
    ("Accept", accept);
    ("Accept-Language", "en-US,en;q=0.5");
    ("Connection", "keep-alive") ].

Definition _setup_session (self : scraper)
           (headers : gmap string (string * string))
  : P (gmap string (string * string)) :=
  p_try_except
    (let headers' := Headers.update (default_headers self) headers in
     p_emit (SetupLog INFO SessionConfigured) ;;
     p_ret headers')
    [ (is_Exception,
       fun e => p_emit (SetupLog ERROR (SessionSetupFailed e)) ;; p_raise e) ].

Definition __init__ (h : host)
           (base_url username password db_name table_name : string)
  : P instance :=
  let self := {| base_url := base_url; username := username;
                 password := password; db_name := db_name;
                 table_name := table_name |} in
  p_emit SessionCreated ;;
  match logging_basicConfig h with
  | Some e => p_raise e
  | None => p_emit LoggingConfigured
  end ;;
  headers ← _setup_session self (session_headers h) ;
  p_ret {| self_of := self; headers_of := headers |}.

(** [config(key)] *)
Definition read_config (h : host) (key : string) : P string :=
  p_emit (ConfigRead key) ;;
  match config h key with
  | inl e => p_raise e
  | inr value => p_ret value
  end.

(** The statements inside the [try] of the script. *)
Definition construct_and_run (h : host)
           (base_url username password db_name table_name : string)
  : P unit :=
  scraper ← __init__ h base_url username password db_name table_name ;
  lift (Scraper.run (self_of scraper) (session_world h)).

(** That [try] with its [except Exception] clause. *)
Definition main_handled (h : host)
           (base_url username password db_name table_name : string)
  : P unit :=
  p_try_except
    (construct_and_run h base_url username password db_name table_name)
    [ (is_Exception, fun e => p_emit (TopLevelCritical e)) ].

(** The block under [if __name__ == "__main__"]. *)
Definition main (h : host) : P unit :=
  base_url ← read_config h "PMA_BASE_URL" ;
  username ← read_config h "PMA_USER_NAME" ;
  password ← read_config h "PMA_PASSWORD" ;
  db_name ← read_config h "PMA_DB_NAME" ;
  table_name ← read_config h "PMA_TABLE_NAME" ;
  main_handled h base_url username password db_name table_name.

(** The module run as a script: the repository of line 8, then [main]. *)
Definition script (h : host) : P unit :=
  match repository_env h with
  | Some e => p_raise e
  | None => main h
  end.

(** The keys [main] reads, in order. *)
Definition config_keys : list string :=
  ["PMA_BASE_URL"; "PMA_USER_NAME"; "PMA_PASSWORD"; "PMA_DB_NAME";
   "PMA_TABLE_NAME"].

End Script.

Module Hosts.

Definition env (key : string) : exn + string :=
  if String.eqb key "PMA_BASE_URL" then inr "http://pma.test/"
  else if String.eqb key "PMA_USER_NAME" then inr "root"
  else if String.eqb key "PMA_PASSWORD" then inr "secret"
  else if String.eqb key "PMA_DB_NAME" then inr "shop"
  else if String.eqb key "PMA_TABLE_NAME" then inr "users"
  else inl OtherException.

(** The headers [requests] gives a fresh session. *)
Definition fresh_headers : gmap string (string * string) :=
  Headers.update
    [ ("User-Agent", "python-requests/2.31.0");
      ("Accept-Encoding", "gzip, deflate");
      ("Accept", "*/*");
      ("Connection", "keep-alive") ] ∅.

Definition configured : host :=
  {| repository_env := None;
     config := env;
     logging_basicConfig := None;
     session_headers := fresh_headers;
     session_world := Samples.happy |}.

(** The password is missing from the repository. *)
Definition no_password : host :=
  {| repository_env := None;
     config := fun key =>
       if String.eqb key "PMA_PASSWORD" then inl OtherException else env key;
     logging_basicConfig := None;
     session_headers := fresh_headers;
     session_world := Samples.happy |}.

(** The log file cannot be opened. *)
Definition no_log_file : host :=
  {| repository_env := None;
     config := env;
     logging_basicConfig := Some OtherException;
     session_headers := fresh_headers;
     session_world := Samples.happy |}.

(** There is no [.env] file. *)
Definition no_env_file : host :=
  {| repository_env := Some OtherException;
     config := env;
     logging_basicConfig := None;
     session_headers := fresh_headers;
     session_world := Samples.happy |}.

End Hosts.

(** * Properties *)

(** ** Strings *)

Example contains_ex1 : Str.contains "nav" "frame_navigation" = true.
Proof. reflexivity. Qed.

Example contains_ex2 : Str.contains "tree" "frame_navigation" = false.
Proof. reflexivity. Qed.

Example strip_ex1 : Str.strip "  a b
 " = "a b".
Proof. reflexivity. Qed.

Example tokens_ex1 :
  Str.tokens " table  table_results ajax" = ["table"; "table_results"; "ajax"].
Proof. reflexivity. Qed.

Example join_ex1 : Str.join " | " ["A"; "BB"] = "A | BB".
Proof. reflexivity. Qed.

Example repeat_char_negative : Str.repeat_char "-" (-3) = "".
Proof. reflexivity. Qed.

Example find_all_hidden_inputs :
  hidden_pairs Samples.login_form_repeated = [("token", "a"); ("token", "b")].
Proof. vm_compute. reflexivity. Qed.

Example get_text_strip_fragments :
  let a := Samples.el "a" []
             [NavigableString "First ";
              Samples.el "b" [] [NavigableString "Name"];
              Comment "sorted"] in
  Soup.get_text a = "First Name"
  /\ Soup.get_text_strip a = "FirstName"
  /\ trimmed_text a = "First Name".
Proof. vm_compute. done. Qed.

Lemma startswith_spec (p s : string) :
  Str.startswith p s = true <-> exists t, s = p +:+ t.
Proof.
  revert s. induction p as [|a p IH]; intros s; simpl.
  - split; [intros _; by exists s | done].
  - destruct s as [|b s].
    + split; [done | intros [t Ht]; discriminate].
    + rewrite andb_true_iff, IH, Ascii.eqb_eq. split.
      * intros [-> [t ->]]. by exists t.
      * intros [t Ht]. injection Ht as -> ->. eauto.
Qed.

Lemma contains_intro (needle pre post : string) :
  Str.contains needle (pre +:+ needle +:+ post) = true.
Proof.
  induction pre as [|c pre IH]; simpl.
  - assert (Str.startswith needle (needle +:+ post) = true) as Hs
      by (apply startswith_spec; eauto).
    destruct (needle +:+ post); simpl in *; rewrite Hs; done.
  - rewrite IH. apply orb_true_r.
Qed.

Lemma contains_spec (needle hay : string) :
  Str.contains needle hay = true <-> Str.substring_of needle hay.
Proof.
  split.
  - induction hay as [|c hay IH]; simpl.
    + rewrite orb_false_r. intros [t Ht]%startswith_spec.
      exists EmptyString, t. done.
    + intros [[t Ht]%startswith_spec | H]%orb_true_iff.
      * exists EmptyString, t. done.
      * destruct (IH H) as (pre & post & ->).
        exists (String c pre), post. done.
  - intros (pre & post & ->). apply contains_intro.
Qed.

Lemma contains_false_spec (needle hay : string) :
  Str.contains needle hay = false <-> ~ Str.substring_of needle hay.
Proof.
  rewrite <- contains_spec. destruct (Str.contains needle hay); naive_solver.
Qed.

(** ** The monad *)

Lemma trace_bind {A B} (m : M A) (k : A -> M B) :
  trace (m ≫= k) =
  trace m ++ match result m with Return a => trace (k a) | Raise _ => [] end.
Proof.
  destruct m as [t [a|e]]; unfold mbind, M_bind, bind, trace, result; simpl.
  - by destruct (k a).
  - by rewrite app_nil_r.
Qed.

Lemma result_bind {A B} (m : M A) (k : A -> M B) :
  result (m ≫= k) =
  match result m with Return a => result (k a) | Raise e => Raise e end.
Proof.
  destruct m as [t [a|e]]; unfold mbind, M_bind, bind, result; simpl; [|done].
  by destruct (k a).
Qed.

Lemma trace_try_except_else {A B} (m : M A) hs (k : A -> M B) :
  trace (try_except_else m hs k) =
  trace m ++ match result m with
             | Return a => trace (k a)
             | Raise e => match select hs e with
                          | Some h => trace (h e)
                          | None => []
                          end
             end.
Proof.
  destruct m as [t [a|e]]; unfold try_except_else, trace, result; simpl.
  - by destruct (k a).
  - destruct (select hs e) as [h|]; simpl; [by destruct (h e)|].
    by rewrite app_nil_r.
Qed.

Lemma result_try_except_else {A B} (m : M A) hs (k : A -> M B) :
  result (try_except_else m hs k) =
  match result m with
  | Return a => result (k a)
  | Raise e => match select hs e with
               | Some h => result (h e)
               | None => Raise e
               end
  end.
Proof.
  destruct m as [t [a|e]]; unfold try_except_else, result; simpl.
  - by destruct (k a).
  - destruct (select hs e) as [h|]; simpl; [by destruct (h e)|done].
Qed.

Lemma trace_try_except {A} (m : M A) hs :
  trace (try_except m hs) =
  trace m ++ match result m with
             | Return a => []
             | Raise e => match select hs e with
                          | Some h => trace (h e)
                          | None => []
                          end
             end.
Proof. unfold try_except. by rewrite trace_try_except_else. Qed.

Lemma result_try_except {A} (m : M A) hs :
  result (try_except m hs) =
  match result m with
  | Return a => Return a
  | Raise e => match select hs e with
               | Some h => result (h e)
               | None => Raise e
               end
  end.
Proof. unfold try_except. by rewrite result_try_except_else. Qed.

Lemma trace_try_finally {A} (m : M A) (f : M unit) :
  trace (try_finally m f) = trace m ++ trace f.
Proof. by destruct m, f. Qed.

Lemma result_try_finally {A} (m : M A) (f : M unit) :
  result (try_finally m f) =
  match result f with Raise e => Raise e | Return _ => result m end.
Proof. by destruct m, f. Qed.

Lemma M_eta {A} (m : M A) : m = (trace m, result m).
Proof. by destruct m. Qed.

(** ** Authentication check *)

Lemma check_auth_success_eq (r : response) :
  Scraper._check_auth_success r =
  if Str.contains "frame_navigation" (text r)
     || Str.contains "pma_navigation_tree" (text r)
  then ([Log INFO AuthSucceeded], Return true)
  else ([Log WARNING AuthFailed], Return false).
Proof.
  unfold Scraper._check_auth_success.
  destruct (Str.contains "frame_navigation" (text r)),
           (Str.contains "pma_navigation_tree" (text r)); reflexivity.
Qed.

(** C1. [_check_auth_success] always returns a boolean; it is [true]
    exactly when the body of the response has "frame_navigation" or
    "pma_navigation_tree" as a substring, and [false] exactly when it has
    neither. *)
Theorem check_auth_success_iff_marker (r : response) :
  exists b : bool,
    result (Scraper._check_auth_success r) = Return b
    /\ (b = true <->
        Str.substring_of "frame_navigation" (text r)
        \/ Str.substring_of "pma_navigation_tree" (text r))
    /\ (b = false <->
        ~ Str.substring_of "frame_navigation" (text r)
        /\ ~ Str.substring_of "pma_navigation_tree" (text r)).
Proof.
  rewrite check_auth_success_eq.
  pose proof (contains_spec "frame_navigation" (text r)) as Hf.
  pose proof (contains_spec "pma_navigation_tree" (text r)) as Hp.
  destruct (Str.contains "frame_navigation" (text r)),
           (Str.contains "pma_navigation_tree" (text r)); simpl;
    eexists; (split; [reflexivity|]); intuition congruence.
Qed.

Example check_auth_success_tree :
  result (Scraper._check_auth_success
            {| status_code := 200;
               text := "<div id='pma_navigation_tree'>" |}) = Return true.
Proof. reflexivity. Qed.

Example check_auth_success_login_again :
  Scraper._check_auth_success
    {| status_code := 200; text := "<form id='login_form'>" |}
  = ([Log WARNING AuthFailed], Return false).
Proof. reflexivity. Qed.

(** ** The login form payload *)

Lemma fold_add_hidden (inputs : list node) (m : gmap string string) :
  fold_left Scraper.add_hidden inputs m =
  list_to_map (reverse (omap hidden_pair inputs)) ∪ m.
Proof.
  revert m. induction inputs as [|x xs IH]; intros m; simpl.
  - by rewrite (left_id_L ∅ (∪)).
  - rewrite IH. unfold Scraper.add_hidden, hidden_pair.
    destruct (Soup.attrs_of x !! "name") as [n|]; [|done].
    destruct (Soup.attrs_of x !! "value") as [v|]; [|done].
    rewrite reverse_cons, list_to_map_app. simpl.
    rewrite <- (assoc_L (∪)). f_equal.
    by rewrite insert_empty, <- insert_union_singleton_l.
Qed.

Lemma form_data_of_union (self : scraper) (login_form : node) :
  Scraper.form_data_of self login_form =
  list_to_map (reverse (hidden_pairs login_form)) ∪ credentials self.
Proof.
  unfold Scraper.form_data_of, hidden_pairs, credentials.
  rewrite fold_add_hidden. f_equal.
Qed.

(** The last hidden input of a given name decides its entry. *)
Lemma form_data_of_last_wins (self : scraper) (login_form : node)
      (before after : list (string * string)) (name value : string) :
  hidden_pairs login_form = before ++ (name, value) :: after ->
  name ∉ after.*1 ->
  Scraper.form_data_of self login_form !! name = Some value.
Proof.
  intros HH Hlast. rewrite form_data_of_union, HH.
  apply lookup_union_Some_l.
  rewrite reverse_app, reverse_cons, <- (assoc_L (++)), list_to_map_app.
  rewrite lookup_union_r.
  - simpl. apply lookup_insert_eq.
  - apply not_elem_of_list_to_map_1. by rewrite fmap_reverse, elem_of_reverse.
Qed.

Lemma form_data_of_credentials (self : scraper) (login_form : node) (k : string) :
  k ∉ (hidden_pairs login_form).*1 ->
  Scraper.form_data_of self login_form !! k = credentials self !! k.
Proof.
  intros Hk. rewrite form_data_of_union. apply lookup_union_r.
  apply not_elem_of_list_to_map_1. by rewrite fmap_reverse, elem_of_reverse.
Qed.

Lemma get_login_form_data_found (self : scraper) (w : world)
      (r : response) (soup login_form : node) :
  session_get w (Scraper.login_url self) = inr r ->
  status_ok r ->
  BeautifulSoup w (text r) = Some soup ->
  Soup.find soup "form" [("id", "login_form")] = Some login_form ->
  Scraper._get_login_form_data self w =
  ([Log INFO FetchingLoginPage; Get (Scraper.login_url self);
    Log DEBUG (FormDataDump (Scraper.form_data_of self login_form))],
   Return (Scraper.form_data_of self login_form)).
Proof.
  intros Hget Hok Hsoup Hform.
  unfold status_ok in Hok.
  unfold Scraper._get_login_form_data, get.
  rewrite Hget. cbn. unfold raise_for_status. rewrite Hok. cbn.
  unfold html_parser. rewrite Hsoup. cbn.
  rewrite Hform. reflexivity.
Qed.

Lemma last_occurrence (H : list (string * string)) (name : string) :
  name ∈ H.*1 ->
  exists before value after,
    H = before ++ (name, value) :: after /\ name ∉ after.*1.
Proof.
  induction H as [|[n v] H IH]; simpl; [by intros ?%elem_of_nil|].
  destruct (decide (name ∈ H.*1)) as [Hin|Hnot].
  - intros _. destruct (IH Hin) as (before & value & after & -> & Hlast).
    by exists ((n, v) :: before), value, after.
  - intros [->|Hin]%elem_of_cons; [|done].
    by exists [], v, H.
Qed.

(** C2, amended. When the login page is served and holds a login form,
    the payload is the map of the hidden name/value pairs, a later pair
    overriding an earlier one of the same name, laid over the two
    credential entries. If no hidden input is named like a credential key,
    both credentials are in the payload. The last hidden input of each name
    appears unchanged under its name; so does every hidden input whose
    name no other hidden input carries with a different value. *)
Theorem login_form_payload (self : scraper) (w : world)
        (r : response) (soup login_form : node) :
  session_get w (Scraper.login_url self) = inr r ->
  status_ok r ->
  BeautifulSoup w (text r) = Some soup ->
  Soup.find soup "form" [("id", "login_form")] = Some login_form ->
  exists payload : gmap string string,
    result (Scraper._get_login_form_data self w) = Return payload
    /\ payload =
       list_to_map (reverse (hidden_pairs login_form)) ∪ credentials self
    /\ ((forall name, name ∈ (hidden_pairs login_form).*1 ->
                      name <> "pma_username" /\ name <> "pma_password") ->
        payload !! "pma_username" = Some (username self)
        /\ payload !! "pma_password" = Some (password self))
    /\ (forall before name value after,
           hidden_pairs login_form = before ++ (name, value) :: after ->
           name ∉ after.*1 ->
           payload !! name = Some value)
    /\ (forall name value,
           (name, value) ∈ hidden_pairs login_form ->
           (forall value', (name, value') ∈ hidden_pairs login_form ->
                           value' = value) ->
           payload !! name = Some value).
Proof.
  intros Hget Hok Hsoup Hform.
  exists (Scraper.form_data_of self login_form).
  rewrite (get_login_form_data_found _ _ _ _ _ Hget Hok Hsoup Hform).
  split; [reflexivity|]. split; [apply form_data_of_union|].
  split; [|split].
  - intros Hfree. split.
    + rewrite form_data_of_credentials; [reflexivity|].
      intros Hin. by destruct (Hfree _ Hin).
    + rewrite form_data_of_credentials; [reflexivity|].
      intros Hin. by destruct (Hfree _ Hin).
  - intros before name value after. apply form_data_of_last_wins.
  - intros name value Hin Hfun.
    assert (name ∈ (hidden_pairs login_form).*1) as Hname.
    { apply list_elem_of_fmap. by exists (name, value). }
    destruct (last_occurrence _ _ Hname) as (before & v' & after & HH & Hlast).
    assert (v' = value) as ->.
    { apply Hfun. rewrite HH. apply elem_of_app. right. apply elem_of_cons.
      by left. }
    by apply (form_data_of_last_wins _ _ before after).
Qed.

Lemma login_form_payload_witness :
  exists payload : gmap string string,
    result (Scraper._get_login_form_data Samples.self Samples.happy)
    = Return payload
    /\ payload !! "csrf" = Some "xyz"
    /\ payload !! "pma_username" = Some "root"
    /\ payload !! "pma_password" = Some "secret"
    /\ payload !! "orphan" = None.
Proof.
  destruct (login_form_payload Samples.self Samples.happy
              {| status_code := 200; text := "login" |}
              Samples.login_page
              (Tag "form" (list_to_map [("id", "login_form")])
                 [Samples.hidden_input "csrf" "xyz";
                  Samples.el "input"
                    [("type", "text"); ("name", "pma_username")] [];
                  Samples.el "input"
                    [("type", "hidden"); ("name", "orphan")] []]))
    as (payload & Hres & Heq & _);
    [reflexivity | reflexivity | reflexivity | reflexivity |].
  exists payload. split; [exact Hres|].
  rewrite Heq. repeat split; vm_compute; reflexivity.
Defined.

(** C2 as stated fails where two hidden inputs share a name: neither is
    named like a credential key, yet the value of the first is not in the
    payload. *)
Lemma login_form_payload_repeated_name :
  hidden_pairs Samples.login_form_repeated = [("token", "a"); ("token", "b")]
  /\ (forall name, name ∈ (hidden_pairs Samples.login_form_repeated).*1 ->
                   name <> "pma_username" /\ name <> "pma_password")
  /\ exists payload : gmap string string,
      result (Scraper._get_login_form_data Samples.self Samples.repeated_name)
      = Return payload
      /\ payload !! "token" = Some "b"
      /\ payload !! "token" <> Some "a".
Proof.
  assert (hidden_pairs Samples.login_form_repeated
          = [("token", "a"); ("token", "b")]) as HH by (vm_compute; reflexivity).
  split; [exact HH|]. split.
  - intros name. rewrite HH. simpl.
    intros [->|[->|[]%elem_of_nil]%elem_of_cons]%elem_of_cons; split; discriminate.
  - eexists. split; [vm_compute; reflexivity|].
    split; [vm_compute; reflexivity|vm_compute; discriminate].
Qed.

(** ** Parsing the results table *)

Lemma fold_left_snoc_map {A B} (f : A -> B) (l : list A) (acc : list B) :
  fold_left (fun acc x => acc ++ [f x]) l acc = acc ++ map f l.
Proof.
  revert acc. induction l as [|x l IH]; intros acc; simpl.
  - by rewrite app_nil_r.
  - by rewrite IH, <- (assoc_L (++)).
Qed.

Lemma collect_headers_map (cells : list node) :
  Scraper.collect_headers cells = map Scraper.header_text cells.
Proof. apply (fold_left_snoc_map Scraper.header_text cells []). Qed.

Lemma collect_rows_map (trs : list node) :
  Scraper.collect_rows trs = map Scraper.row_data trs.
Proof. apply (fold_left_snoc_map Scraper.row_data trs []). Qed.

Lemma parse_table_rejected (w : world) (html : string) :
  BeautifulSoup w html = None ->
  Scraper.parse_table_body w html = ([], Raise ParserRejectedMarkup)
  /\ Scraper._parse_table_data w html =
     ([Log ERROR (ParseFailed ParserRejectedMarkup)], Return (None, None)).
Proof.
  intros Hsoup.
  unfold Scraper._parse_table_data, Scraper.parse_table_body, html_parser.
  by rewrite Hsoup.
Qed.

Lemma parse_table_no_table (w : world) (html : string) (soup : node) :
  BeautifulSoup w html = Some soup ->
  Soup.find soup "table" [("class", "table_results")] = None ->
  Scraper._parse_table_data w html =
  ([Log WARNING TableNotFound], Return (None, None)).
Proof.
  intros Hsoup Hfind.
  unfold Scraper._parse_table_data, Scraper.parse_table_body, html_parser.
  rewrite Hsoup. cbn. by rewrite Hfind.
Qed.

Lemma parse_table_no_tbody (w : world) (html : string) (soup table : node) :
  BeautifulSoup w html = Some soup ->
  Soup.find soup "table" [("class", "table_results")] = Some table ->
  Soup.find table "tbody" [] = None ->
  Scraper.parse_table_body w html = ([], Raise AttributeError)
  /\ Scraper._parse_table_data w html =
     ([Log ERROR (ParseFailed AttributeError)], Return (None, None)).
Proof.
  intros Hsoup Hfind Hbody.
  unfold Scraper._parse_table_data, Scraper.parse_table_body, html_parser.
  rewrite Hsoup. cbn. by rewrite Hfind, Hbody.
Qed.

Lemma parse_table_found (w : world) (html : string)
      (soup table tbody : node) :
  BeautifulSoup w html = Some soup ->
  Soup.find soup "table" [("class", "table_results")] = Some table ->
  Soup.find table "tbody" [] = Some tbody ->
  Scraper._parse_table_data w html =
  ([Log INFO (RowsParsed (length (Soup.find_all tbody "tr" [])))],
   Return
     (Some (map Scraper.header_text
              (Soup.find_all table "th" [("class", "column_heading")])),
      Some (map Scraper.row_data (Soup.find_all tbody "tr" [])))).
Proof.
  intros Hsoup Hfind Hbody.
  unfold Scraper._parse_table_data, Scraper.parse_table_body, html_parser.
  rewrite Hsoup. cbn. rewrite Hfind, Hbody. cbn.
  by rewrite collect_headers_map, collect_rows_map, length_map.
Qed.

(** What the body of the [try] can raise: the parser's rejection of the
    markup, or the attribute error of a missing [tbody]. *)
Lemma parse_table_body_raises (w : world) (html : string) (e : exn) :
  result (Scraper.parse_table_body w html) = Raise e ->
  Scraper.parse_table_body w html = ([], Raise e)
  /\ ((e = ParserRejectedMarkup /\ BeautifulSoup w html = None)
      \/ (e = AttributeError
          /\ exists soup table,
              BeautifulSoup w html = Some soup
              /\ Soup.find soup "table" [("class", "table_results")]
                 = Some table
              /\ Soup.find table "tbody" [] = None)).
Proof.
  unfold Scraper.parse_table_body, html_parser.
  destruct (BeautifulSoup w html) as [soup|] eqn:Hsoup; cbn.
  - destruct (Soup.find soup _ _) as [table|] eqn:Hfind; [|done].
    destruct (Soup.find table "tbody" []) as [tbody|] eqn:Hbody; cbn; [done|].
    intros [= <-]. split; [done|]. right. split; [done|]. eauto.
  - intros [= <-]. split; [done|]. by left.
Qed.

(** C3. [_parse_table_data] returns for every input and never raises:
    without an element of class [table_results] the result is
    [(None, None)]; when the parser rejects the markup, its exception is
    raised inside the [try], caught, and the result is [(None, None)];
    whatever exception the statements inside the [try] end with derives
    from [Exception], is caught by the handler, logged as an error, and
    the result is [(None, None)]; and every result is [(None, None)] or a
    pair of a header list and a row list. *)
Theorem parse_table_never_raises (w : world) (html : string) :
  (forall soup,
      BeautifulSoup w html = Some soup ->
      Soup.find soup "table" [("class", "table_results")] = None ->
      result (Scraper._parse_table_data w html) = Return (None, None))
  /\ (BeautifulSoup w html = None ->
      result (Scraper.parse_table_body w html) = Raise ParserRejectedMarkup
      /\ result (Scraper._parse_table_data w html) = Return (None, None))
  /\ (forall e,
         result (Scraper.parse_table_body w html) = Raise e ->
         is_Exception e = true
         /\ Scraper._parse_table_data w html =
            ([Log ERROR (ParseFailed e)], Return (None, None)))
  /\ (result (Scraper._parse_table_data w html) = Return (None, None)
      \/ exists headers rows,
          result (Scraper._parse_table_data w html)
          = Return (Some headers, Some rows)).
Proof.
  split; [|split; [|split]].
  - intros soup Hsoup Hfind. by rewrite (parse_table_no_table _ _ _ Hsoup Hfind).
  - intros Hsoup. by destruct (parse_table_rejected _ _ Hsoup) as [-> ->].
  - intros e He. destruct (parse_table_body_raises _ _ _ He) as [Hbody Hcause].
    assert (is_Exception e = true) as Hclass.
    { by destruct Hcause as [[-> _]|[-> _]]. }
    split; [done|].
    unfold Scraper._parse_table_data, try_except, try_except_else.
    rewrite Hbody. cbn [select]. by rewrite Hclass.
  - destruct (BeautifulSoup w html) as [soup|] eqn:Hsoup.
    + destruct (Soup.find soup "table" [("class", "table_results")])
        as [table|] eqn:Hfind.
      * destruct (Soup.find table "tbody" []) as [tbody|] eqn:Hbody.
        -- right. rewrite (parse_table_found _ _ _ _ _ Hsoup Hfind Hbody).
           eauto.
        -- left.
           by destruct (parse_table_no_tbody _ _ _ _ Hsoup Hfind Hbody)
             as [_ ->].
      * left. by rewrite (parse_table_no_table _ _ _ Hsoup Hfind).
    + left. by destruct (parse_table_rejected _ _ Hsoup) as [_ ->].
Qed.

Lemma parse_table_never_raises_witness :
  result (Scraper._parse_table_data Samples.happy "login") = Return (None, None)
  /\ (result (Scraper.parse_table_body Samples.table_rejected "table")
      = Raise ParserRejectedMarkup
      /\ result (Scraper._parse_table_data Samples.table_rejected "table")
         = Return (None, None))
  /\ Scraper._parse_table_data Samples.table_rejected "table" =
     ([Log ERROR (ParseFailed ParserRejectedMarkup)], Return (None, None))
  /\ Scraper._parse_table_data Samples.no_tbody "table" =
     ([Log ERROR (ParseFailed AttributeError)], Return (None, None)).
Proof.
  split; [|split; [|split]].
  - apply (proj1 (parse_table_never_raises Samples.happy "login")
                 Samples.login_page); reflexivity.
  - apply (parse_table_never_raises Samples.table_rejected "table").
    reflexivity.
  - apply (parse_table_never_raises Samples.table_rejected "table").
    reflexivity.
  - apply (parse_table_never_raises Samples.no_tbody "table").
    reflexivity.
Defined.

Lemma get_text_strip_single (n : node) (s : string) :
  Soup.strings n = [s] ->
  Soup.get_text_strip n = Str.strip s /\ trimmed_text n = Str.strip s.
Proof.
  intros Hs. unfold Soup.get_text_strip, trimmed_text, Soup.get_text.
  rewrite Hs. simpl. split; [|done].
  destruct (String.eqb (Str.strip s) "") eqn:He; simpl; [|done].
  by apply String.eqb_eq in He.
Qed.

(** C4, amended. For a results table with a [tbody], the headers are, in
    document order, one text per header cell of class [column_heading],
    read from the first link inside the cell if there is one and from the
    cell otherwise; the rows are, in document order, one list per row
    element of the [tbody], holding one text per cell of the row after
    the first four, in order. The text read from an element is the
    concatenation of its text fragments, each trimmed on its own and the
    empty ones skipped; it is the trimmed text of the element when the
    element holds a single text fragment. *)
Theorem parse_table_headers_and_rows (w : world) (html : string)
        (soup table tbody : node) :
  BeautifulSoup w html = Some soup ->
  Soup.find soup "table" [("class", "table_results")] = Some table ->
  Soup.find table "tbody" [] = Some tbody ->
  result (Scraper._parse_table_data w html) =
  Return
    (Some (map (fun th => match Soup.find th "a" [] with
                          | Some a => Soup.get_text_strip a
                          | None => Soup.get_text_strip th
                          end)
               (Soup.find_all table "th" [("class", "column_heading")])),
     Some (map (fun tr => map Soup.get_text_strip
                              (drop 4 (Soup.find_all tr "td" [])))
               (Soup.find_all tbody "tr" [])))
  /\ (forall n : node,
         Soup.get_text_strip n =
         Str.join "" (List.filter (fun s => negb (String.eqb s ""))
                                  (map Str.strip (Soup.strings n))))
  /\ (forall (n : node) (s : string),
         Soup.strings n = [s] -> Soup.get_text_strip n = trimmed_text n).
Proof.
  intros Hsoup Hfind Hbody. split; [|split].
  - by rewrite (parse_table_found _ _ _ _ _ Hsoup Hfind Hbody).
  - reflexivity.
  - intros n s Hs. destruct (get_text_strip_single n s Hs) as [-> ->]. done.
Qed.

Lemma parse_table_headers_and_rows_witness :
  result (Scraper._parse_table_data Samples.happy "table") =
  Return (Some ["ID"; "Name"; "Email"; "Created"], Some [["42"; "Alice"]]).
Proof.
  destruct (parse_table_headers_and_rows Samples.happy "table"
              Samples.results_page
              (Samples.el "table" [("class", "table table_results ajax")]
                 [Samples.el "thead" []
                    [Samples.el "tr" []
                       [Samples.th_link "ID"; Samples.th_link "Name";
                        Samples.th_link " Email"; Samples.th_link "Created"]];
                  Samples.el "tbody" []
                    [Samples.el "tr" []
                       [Samples.td "edit"; Samples.td "copy";
                        Samples.td "delete"; Samples.td "";
                        Samples.td " 42 "; Samples.td "Alice"]]])
              (Samples.el "tbody" []
                 [Samples.el "tr" []
                    [Samples.td "edit"; Samples.td "copy";
                     Samples.td "delete"; Samples.td "";
                     Samples.td " 42 "; Samples.td "Alice"]]))
    as [Hres _]; [reflexivity | reflexivity | reflexivity |].
  rewrite Hres. vm_compute. reflexivity.
Defined.

(** C4 as stated fails on a header whose link holds markup: the text the
    parser returns for it is not its trimmed text. *)
Lemma parse_table_header_not_trimmed_text :
  exists soup table : node,
    BeautifulSoup Samples.nested_markup "table" = Some soup
    /\ Soup.find soup "table" [("class", "table_results")] = Some table
    /\ result (Scraper._parse_table_data Samples.nested_markup "table")
       = Return (Some ["FirstName"], Some [])
    /\ map trimmed_header_text
           (Soup.find_all table "th" [("class", "column_heading")])
       = ["First Name"]
    /\ result (Scraper._parse_table_data Samples.nested_markup "table")
       <> Return
            (Some (map trimmed_header_text
                       (Soup.find_all table "th" [("class", "column_heading")])),
             Some []).
Proof.
  eexists _, _. split; [reflexivity|].
  split; [vm_compute; reflexivity|].
  split; [vm_compute; reflexivity|].
  split; [vm_compute; reflexivity|].
  vm_compute. discriminate.
Qed.

(** C5, amended. When the results table has a [tbody] and that [tbody]
    holds no row element, the result is the parsed header list paired with
    the empty row list, not [(None, None)]. *)
Theorem parse_table_empty_body (w : world) (html : string)
        (soup table tbody : node) :
  BeautifulSoup w html = Some soup ->
  Soup.find soup "table" [("class", "table_results")] = Some table ->
  Soup.find table "tbody" [] = Some tbody ->
  Soup.find_all tbody "tr" [] = [] ->
  result (Scraper._parse_table_data w html) =
  Return
    (Some (map Scraper.header_text
               (Soup.find_all table "th" [("class", "column_heading")])),
     Some [])
  /\ result (Scraper._parse_table_data w html) <> Return (None, None).
Proof.
  intros Hsoup Hfind Hbody Hrows.
  rewrite (parse_table_found _ _ _ _ _ Hsoup Hfind Hbody), Hrows. simpl.
  split; [reflexivity|discriminate].
Qed.

Lemma parse_table_empty_body_witness :
  result (Scraper._parse_table_data
            Samples.empty_body
            "table")
  = Return (Some ["ID"; "Name"], Some []).
Proof.
  destruct (parse_table_empty_body
              Samples.empty_body
              "table"
              Samples.empty_body_page
              (Samples.el "table" [("class", "table_results")]
                 [Samples.el "thead" []
                    [Samples.el "tr" []
                       [Samples.th_link "ID"; Samples.th_link "Name"]];
                  Samples.el "tbody" [] []])
              (Samples.el "tbody" [] []))
    as [Hres _]; [reflexivity | reflexivity | reflexivity | reflexivity |].
  rewrite Hres. vm_compute. reflexivity.
Defined.

(** C5 as stated fails on a results table that has header cells and no
    body row because it has no [tbody] at all: the result is
    [(None, None)]. *)
Lemma parse_table_headers_without_tbody :
  exists soup table : node,
    BeautifulSoup Samples.headers_only "table" = Some soup
    /\ Soup.find soup "table" [("class", "table_results")] = Some table
    /\ map Scraper.header_text
           (Soup.find_all table "th" [("class", "column_heading")])
       = ["ID"; "Name"]
    /\ body_rows table = []
    /\ result (Scraper._parse_table_data Samples.headers_only "table")
       = Return (None, None).
Proof.
  eexists _, _. split; [reflexivity|].
  split; [vm_compute; reflexivity|].
  repeat split; vm_compute; reflexivity.
Qed.

(** C10. When the results table holds no [tbody] element, looking up the
    rows raises inside the [try], the exception is caught, and the result
    is [(None, None)], whatever header cells and row elements the table
    holds. *)
Theorem parse_table_without_tbody (w : world) (html : string)
        (soup table : node) :
  BeautifulSoup w html = Some soup ->
  Soup.find soup "table" [("class", "table_results")] = Some table ->
  Soup.find table "tbody" [] = None ->
  result (Scraper.parse_table_body w html) = Raise AttributeError
  /\ Scraper._parse_table_data w html =
     ([Log ERROR (ParseFailed AttributeError)], Return (None, None)).
Proof.
  intros Hsoup Hfind Hbody.
  destruct (parse_table_no_tbody _ _ _ _ Hsoup Hfind Hbody) as [-> ->]. done.
Qed.

Lemma parse_table_without_tbody_witness :
  (exists soup table : node,
      BeautifulSoup Samples.no_tbody "table" = Some soup
      /\ Soup.find soup "table" [("class", "table_results")] = Some table
      /\ map Scraper.header_text
             (Soup.find_all table "th" [("class", "column_heading")])
         = ["ID"; "Name"]
      /\ length (Soup.find_all table "tr" []) = 2)
  /\ Scraper._parse_table_data Samples.no_tbody "table" =
     ([Log ERROR (ParseFailed AttributeError)], Return (None, None)).
Proof.
  split.
  - eexists _, _. split; [reflexivity|].
    split; [vm_compute; reflexivity|].
    split; vm_compute; reflexivity.
  - apply (parse_table_without_tbody Samples.no_tbody "table"
             Samples.no_tbody_page
             (Samples.el "table" [("class", "table_results")]
                [Samples.el "tr" []
                   [Samples.th_link "ID"; Samples.th_link "Name"];
                 Samples.el "tr" []
                   [Samples.td "edit"; Samples.td "copy";
                    Samples.td "delete"; Samples.td "";
                    Samples.td "42"; Samples.td "Alice"]]));
      reflexivity.
Defined.

(** ** Presenting the results *)

Lemma length_string_of_repeat (c : ascii) (n : nat) :
  String.length (string_of_list_ascii (repeat c n)) = n.
Proof. induction n as [|n IH]; simpl; [done|by rewrite IH]. Qed.

Lemma fold_left_lengths (headers : list string) (acc : Z) :
  fold_left (fun acc h => (acc + Z.of_nat (String.length h))%Z) headers acc
  = (acc + Z.of_nat (sum_list (String.length <$> headers)))%Z.
Proof.
  revert acc. induction headers as [|h headers IH]; intros acc; simpl.
  - lia.
  - rewrite IH.
    change (list_fmap string nat String.length headers)
      with (String.length <$> headers).
    lia.
Qed.

Lemma separator_width_eq (headers : list string) :
  Scraper.separator_width headers
  = (Z.of_nat (sum_list (String.length <$> headers))
     + 3 * (Z.of_nat (length headers) - 1))%Z.
Proof. unfold Scraper.separator_width. by rewrite fold_left_lengths. Qed.

Lemma for_each_print (w : world) (rows : list (list string)) :
  (forall x, stdout w x = None) ->
  for_each rows (fun row => print w (Line (Str.join " | " row)))
  = (map (fun row => Print (Line (Str.join " | " row))) rows, Return tt).
Proof.
  intros Hout. induction rows as [|row rows IH]; simpl; [done|].
  rewrite IH. unfold print. rewrite Hout. reflexivity.
Qed.

(** C9. On a console that accepts every line and for a non-empty list of
    headers, [_print_results] prints, after its banner, the headers joined
    by " | ", then a line of dashes as long as the sum of the header
    lengths plus three for each header after the first, then one line per
    row with the cells of the row joined by " | ", and returns. *)
Theorem print_results_lines (w : world) (headers : list string)
        (rows : list (list string)) :
  (forall x, stdout w x = None) ->
  headers <> [] ->
  exists sep : string,
    Scraper._print_results w headers rows =
    ([Print Banner; Print (Line (Str.join " | " headers)); Print (Line sep)]
       ++ map (fun row => Print (Line (Str.join " | " row))) rows
       ++ [Log INFO ResultsPrinted],
     Return tt)
    /\ sep = string_of_list_ascii (repeat "-"%char (String.length sep))
    /\ Z.of_nat (String.length sep)
       = (Z.of_nat (sum_list (String.length <$> headers))
          + 3 * (Z.of_nat (length headers) - 1))%Z.
Proof.
  intros Hout Hne.
  exists (Str.repeat_char "-" (Scraper.separator_width headers)).
  split; [|split].
  - unfold Scraper._print_results. rewrite for_each_print by done.
    unfold print. rewrite !Hout. cbn.
    by rewrite <- (assoc_L (++)).
  - unfold Str.repeat_char. by rewrite length_string_of_repeat.
  - unfold Str.repeat_char. rewrite length_string_of_repeat.
    rewrite separator_width_eq. destruct headers; [done|]. simpl length. lia.
Qed.

Lemma print_results_lines_witness :
  Scraper._print_results Samples.happy ["A"; "BB"] [["1"; "2"]] =
  ([Print Banner; Print (Line "A | BB"); Print (Line "------");
    Print (Line "1 | 2"); Log INFO ResultsPrinted],
   Return tt).
Proof.
  destruct (print_results_lines Samples.happy ["A"; "BB"] [["1"; "2"]])
    as (sep & Hres & Hsep & Hlen); [reflexivity | discriminate |].
  rewrite Hres. simpl in Hlen.
  assert (String.length sep = 6) as Hsix by lia.
  rewrite Hsix in Hsep. subst sep. reflexivity.
Defined.

(** ** Events of a computation *)

Section AllEvents.

Variable P : event -> bool.

Lemma all_events_ret {A} (a : A) : all_events P (ret a).
Proof. done. Qed.

Lemma all_events_raise {A} (e : exn) : all_events P (@raise A e).
Proof. done. Qed.

Lemma all_events_emit (ev : event) : P ev = true -> all_events P (emit ev).
Proof. unfold all_events. simpl. by intros ->. Qed.

Lemma all_events_bind {A B} (m : M A) (k : A -> M B) :
  all_events P m -> (forall a, all_events P (k a)) -> all_events P (m ≫= k).
Proof.
  unfold all_events. intros Hm Hk. rewrite trace_bind, forallb_app, Hm.
  destruct (result m); [apply Hk|done].
Qed.

Lemma all_events_try_except_else {A B} (m : M A) hs (k : A -> M B) :
  all_events P m ->
  Forall (fun c : clause B => forall e, all_events P (c.2 e)) hs ->
  (forall a, all_events P (k a)) ->
  all_events P (try_except_else m hs k).
Proof.
  unfold all_events. intros Hm Hhs Hk.
  rewrite trace_try_except_else, forallb_app, Hm.
  destruct (result m) as [a|e]; [apply Hk|]. simpl.
  induction Hhs as [|[test h] hs Hh _ IH]; simpl; [done|].
  destruct (test e); [apply Hh|apply IH].
Qed.

Lemma all_events_try_except {A} (m : M A) hs :
  all_events P m ->
  Forall (fun c : clause A => forall e, all_events P (c.2 e)) hs ->
  all_events P (try_except m hs).
Proof.
  intros Hm Hhs. apply all_events_try_except_else; [done|done|].
  intros a. apply all_events_ret.
Qed.

Lemma all_events_for_each {A} (l : list A) (body : A -> M unit) :
  (forall x, all_events P (body x)) -> all_events P (for_each l body).
Proof.
  intros Hbody. induction l as [|x l IH]; simpl; [done|].
  apply all_events_bind; [apply Hbody|done].
Qed.

Lemma all_events_elem {A} (m : M A) (ev : event) :
  all_events P m -> ev ∈ trace m -> P ev = true.
Proof.
  unfold all_events. rewrite forallb_forall. intros Hall Hin.
  apply Hall. by apply list_elem_of_In.
Qed.

Lemma all_events_raise_for_status (r : response) :
  all_events P (raise_for_status r).
Proof. unfold raise_for_status. by destruct (_ && _). Qed.

Lemma all_events_deref {A} (o : option A) : all_events P (deref o).
Proof. by destruct o. Qed.

End AllEvents.

Lemma elem_of_trace_bind {A B} (m : M A) (k : A -> M B) (ev : event) :
  ev ∈ trace (m ≫= k) ->
  ev ∈ trace m \/ exists a, result m = Return a /\ ev ∈ trace (k a).
Proof.
  rewrite trace_bind, elem_of_app. intros [Hm|Hk]; [by left|right].
  destruct (result m) as [a|e]; [by exists a|by apply elem_of_nil in Hk].
Qed.

Lemma elem_of_trace_try_except_else {A B} (m : M A) hs (k : A -> M B) ev :
  ev ∈ trace (try_except_else m hs k) ->
  ev ∈ trace m
  \/ (exists a, result m = Return a /\ ev ∈ trace (k a))
  \/ (exists e h, result m = Raise e /\ select hs e = Some h
                  /\ ev ∈ trace (h e)).
Proof.
  rewrite trace_try_except_else, elem_of_app. intros [Hm|Hk]; [by left|right].
  destruct (result m) as [a|e]; [left; by exists a|right].
  destruct (select hs e) as [h|] eqn:Hsel; [|by apply elem_of_nil in Hk].
  exists e, h. by rewrite Hsel.
Qed.

Lemma closes_app (t1 t2 : list event) :
  closes (t1 ++ t2) = closes t1 + closes t2.
Proof. unfold closes. by rewrite List.filter_app, length_app. Qed.

Lemma closes_none (t : list event) :
  forallb not_Close t = true -> closes t = 0.
Proof.
  unfold closes. induction t as [|ev t IH]; simpl; [done|].
  intros [Hev Ht]%andb_true_iff. unfold not_Close in Hev.
  destruct (is_Close ev); [done|]. by apply IH.
Qed.

Lemma all_events_log (P : event -> bool) (l : level) (m : message) :
  P (Log l m) = true -> all_events P (log l m).
Proof. apply all_events_emit. Qed.

Lemma all_events_get (P : event -> bool) (w : world) (url : string) :
  P (Get url) = true -> all_events P (get w url).
Proof.
  intros HP. unfold get. apply all_events_bind; [by apply all_events_emit|].
  intros _. by destruct (session_get w url).
Qed.

Lemma all_events_post (P : event -> bool) (w : world) (url : string)
      (data : gmap string string) :
  P (Post url data) = true -> all_events P (post w url data).
Proof.
  intros HP. unfold post. apply all_events_bind; [by apply all_events_emit|].
  intros _. by destruct (session_post w url data).
Qed.

Lemma all_events_html_parser (P : event -> bool) (w : world)
      (html : string) :
  all_events P (html_parser w html).
Proof. unfold html_parser. by destruct (BeautifulSoup w html). Qed.

(** Splits a goal [all_events P m] along the structure of [m]; the events
    themselves are checked by computation. *)
Ltac quiet :=
  repeat first
    [ apply all_events_ret
    | apply all_events_raise
    | apply all_events_raise_for_status
    | apply all_events_deref
    | apply all_events_html_parser
    | apply all_events_log; reflexivity
    | apply all_events_get; reflexivity
    | apply all_events_post; reflexivity
    | apply all_events_bind; [|intros ?]
    | apply all_events_try_except_else; [| |intros ?]
    | apply all_events_try_except
    | match goal with
      | |- Forall _ (_ :: _) => constructor; [intros ?; simpl|]
      | |- Forall _ [] => constructor
      | |- all_events _ (match ?x with _ => _ end) => destruct x
      end ].

Section RunEvents.

Variable self : scraper.
Variable w : world.

Lemma get_login_form_data_not_Close :
  all_events not_Close (Scraper._get_login_form_data self w).
Proof. unfold Scraper._get_login_form_data. quiet. Qed.

Lemma get_login_form_data_not_presenter :
  all_events not_presenter (Scraper._get_login_form_data self w).
Proof. unfold Scraper._get_login_form_data. quiet. Qed.

Lemma login_request_not_Close (d : gmap string string) :
  all_events not_Close (Scraper.login_request self w d).
Proof. unfold Scraper.login_request. quiet. Qed.

Lemma login_request_not_presenter (d : gmap string string) :
  all_events not_presenter (Scraper.login_request self w d).
Proof. unfold Scraper.login_request. quiet. Qed.

Lemma table_request_not_Close :
  all_events not_Close (Scraper.table_request self w).
Proof. unfold Scraper.table_request. quiet. Qed.

Lemma table_request_not_presenter :
  all_events not_presenter (Scraper.table_request self w).
Proof. unfold Scraper.table_request. quiet. Qed.

Lemma check_auth_success_not_Close (r : response) :
  all_events not_Close (Scraper._check_auth_success r).
Proof. rewrite check_auth_success_eq. by destruct (_ || _). Qed.

Lemma check_auth_success_not_presenter (r : response) :
  all_events not_presenter (Scraper._check_auth_success r).
Proof. rewrite check_auth_success_eq. by destruct (_ || _). Qed.

Lemma parse_table_data_not_Close (html : string) :
  all_events not_Close (Scraper._parse_table_data w html).
Proof. unfold Scraper._parse_table_data, Scraper.parse_table_body. quiet. Qed.

Lemma parse_table_data_not_presenter (html : string) :
  all_events not_presenter (Scraper._parse_table_data w html).
Proof. unfold Scraper._parse_table_data, Scraper.parse_table_body. quiet. Qed.

Lemma print_results_not_Close (headers : list string)
      (rows : list (list string)) :
  all_events not_Close (Scraper._print_results w headers rows).
Proof.
  assert (forall x, all_events not_Close (print w x)) as Hprint.
  { intros x. unfold print. by destruct (stdout w x). }
  unfold Scraper._print_results.
  apply all_events_try_except; [|quiet].
  repeat (apply all_events_bind; [apply Hprint|intros _]).
  apply all_events_bind; [|intros _; quiet].
  apply all_events_for_each. intros row. apply Hprint.
Qed.

Lemma run_body_not_Close : all_events not_Close (Scraper.run_body self w).
Proof.
  unfold Scraper.run_body.
  apply all_events_bind; [apply get_login_form_data_not_Close|intros fd].
  apply all_events_bind; [quiet|intros _].
  apply all_events_try_except_else;
    [apply login_request_not_Close|quiet|intros r].
  apply all_events_bind; [apply check_auth_success_not_Close|intros ok].
  destruct ok; cbn [negb]; [|quiet].
  apply all_events_bind; [quiet|intros _].
  apply all_events_try_except_else;
    [apply table_request_not_Close|quiet|intros r'].
  apply all_events_bind; [apply parse_table_data_not_Close|].
  intros [[headers|] [rows|]]; try apply all_events_ret.
  destruct (_ && _); [apply print_results_not_Close|apply all_events_ret].
Qed.

Lemma run_handled_not_Close : all_events not_Close (Scraper.run_handled self w).
Proof.
  unfold Scraper.run_handled.
  apply all_events_try_except; [apply run_body_not_Close|quiet].
Qed.

(** The [finally] block closes the session first and then only logs. *)
Lemma run_finally_trace :
  exists after : list event,
    trace (Scraper.run_finally w) = Close :: after
    /\ forallb not_Close after = true.
Proof.
  unfold Scraper.run_finally, close.
  destruct (session_close w) as [[]|]; cbn; eauto.
Qed.

End RunEvents.

(** ** The run *)

(** C7. In every run the session is closed exactly once, and after all
    the statements of the outer [try] and its handler have had their
    effects: the trace of [run] is the trace of the guarded body, which
    holds no close, then the close, then what the [finally] block logs.
    This covers every way the guarded body can end, returning or
    raising. *)
Theorem session_closed_exactly_once (self : scraper) (w : world) :
  closes (trace (Scraper.run self w)) = 1
  /\ exists after : list event,
      trace (Scraper.run self w)
      = trace (Scraper.run_handled self w) ++ Close :: after
      /\ closes (trace (Scraper.run_handled self w)) = 0
      /\ closes after = 0.
Proof.
  destruct (run_finally_trace w) as (after & Hfin & Hafter).
  pose proof (closes_none _ (run_handled_not_Close self w)) as Hbody.
  pose proof (closes_none _ Hafter) as Hafter'.
  assert (trace (Scraper.run self w)
          = trace (Scraper.run_handled self w) ++ Close :: after) as Htrace.
  { unfold Scraper.run. by rewrite trace_try_finally, Hfin. }
  split; [|by exists after].
  rewrite Htrace, closes_app, Hbody.
  change (Close :: after) with ([Close] ++ after).
  rewrite closes_app, Hafter'. reflexivity.
Qed.

(** The three ways a run can end. *)
Example run_completes :
  Scraper.run Samples.self Samples.happy =
  ([Log INFO FetchingLoginPage;
    Get "http://pma.test/index.php?route=/";
    Log DEBUG (FormDataDump
                 {[ "pma_username" := "root"; "pma_password" := "secret";
                    "csrf" := "xyz" ]});
    Log INFO SendingCredentials;
    Post "http://pma.test/index.php?route=/"
         {[ "pma_username" := "root"; "pma_password" := "secret";
            "csrf" := "xyz" ]};
    Log INFO AuthSucceeded;
    Log INFO (FetchingTable "users");
    Get "http://pma.test/index.php?route=/sql&db=shop&table=users";
    Log INFO (RowsParsed 1);
    Print Banner;
    Print (Line "ID | Name | Email | Created");
    Print (Line "---------------------------");
    Print (Line "42 | Alice");
    Log INFO ResultsPrinted;
    Close;
    Log INFO SessionClosed],
   Return tt).
Proof. vm_compute. reflexivity. Qed.

Example run_returns_early :
  Scraper.run Samples.self Samples.login_rejected =
  ([Log INFO FetchingLoginPage;
    Get "http://pma.test/index.php?route=/";
    Log DEBUG (FormDataDump
                 {[ "pma_username" := "root"; "pma_password" := "secret";
                    "csrf" := "xyz" ]});
    Log INFO SendingCredentials;
    Post "http://pma.test/index.php?route=/"
         {[ "pma_username" := "root"; "pma_password" := "secret";
            "csrf" := "xyz" ]};
    Log ERROR (AuthRequestFailed (HTTPError 500));
    Close;
    Log INFO SessionClosed],
   Return tt).
Proof. vm_compute. reflexivity. Qed.

Example run_interrupted :
  Scraper.run Samples.self Samples.interrupted =
  ([Log INFO FetchingLoginPage;
    Get "http://pma.test/index.php?route=/";
    Log DEBUG (FormDataDump
                 {[ "pma_username" := "root"; "pma_password" := "secret";
                    "csrf" := "xyz" ]});
    Log INFO SendingCredentials;
    Post "http://pma.test/index.php?route=/"
         {[ "pma_username" := "root"; "pma_password" := "secret";
            "csrf" := "xyz" ]};
    Close;
    Log ERROR (SessionCloseFailed OtherException)],
   Raise KeyboardInterrupt).
Proof. vm_compute. reflexivity. Qed.

Lemma table_request_returns (self : scraper) (w : world) (r : response) :
  result (Scraper.table_request self w) = Return r ->
  session_get w (Scraper.table_url self) = inr r /\ status_ok r.
Proof.
  unfold Scraper.table_request, get, status_ok, raise_for_status.
  destruct (session_get w (Scraper.table_url self)) as [e|r']; cbn; [done|].
  destruct ((400 <=? status_code r')%Z && (status_code r' <? 600)%Z) eqn:Hst;
    cbn; [done|].
  by intros [= <-].
Qed.

Lemma run_finally_not_presenter (w : world) :
  all_events not_presenter (Scraper.run_finally w).
Proof.
  unfold Scraper.run_finally, close.
  by destruct (session_close w) as [[]|].
Qed.

Lemma truthy_nonempty {A} (l : list A) : Scraper.truthy l = true -> l <> [].
Proof. by destruct l. Qed.

(** C6. Whatever [_print_results] can do (print, or log its success or
    failure) happens in a run only if the table request returned a response
    whose parse gave a non-empty header list and a non-empty row list. So
    a parse result with no rows, or with no headers, is never presented. *)
Theorem presenter_only_when_truthy (self : scraper) (w : world) :
  (forall ev : event,
      ev ∈ trace (Scraper.run self w) ->
      presenter_event ev = true ->
      exists r headers rows,
        session_get w (Scraper.table_url self) = inr r
        /\ result (Scraper._parse_table_data w (text r))
           = Return (Some headers, Some rows)
        /\ headers <> [] /\ rows <> [])
  /\ (forall r headers rows,
         session_get w (Scraper.table_url self) = inr r ->
         result (Scraper._parse_table_data w (text r))
         = Return (Some headers, Some rows) ->
         headers = [] \/ rows = [] ->
         forall ev : event,
           ev ∈ trace (Scraper.run self w) -> presenter_event ev = false).
Proof.
  assert (forall ev : event,
      ev ∈ trace (Scraper.run self w) ->
      presenter_event ev = true ->
      exists r headers rows,
        session_get w (Scraper.table_url self) = inr r
        /\ result (Scraper._parse_table_data w (text r))
           = Return (Some headers, Some rows)
        /\ headers <> [] /\ rows <> []) as Hmain.
  { intros ev Hin Hev.
    assert (forall A (m : M A),
               all_events not_presenter m -> ev ∈ trace m -> False) as Habsurd.
    { intros A m Hall Hm.
      pose proof (all_events_elem _ _ _ Hall Hm) as Hnot.
      unfold not_presenter in Hnot. by rewrite Hev in Hnot. }
    unfold Scraper.run in Hin. rewrite trace_try_finally in Hin.
    apply elem_of_app in Hin as [Hin|Hin];
      [|destruct (Habsurd _ _ (run_finally_not_presenter w) Hin)].
    unfold Scraper.run_handled, try_except in Hin.
    apply elem_of_trace_try_except_else in Hin
      as [Hin|[(a & _ & Hin)|(e & h & _ & Hsel & Hin)]].
    2: { by apply elem_of_nil in Hin. }
    2: { simpl in Hsel. destruct (is_Exception e); [|done].
         injection Hsel as <-.
         apply list_elem_of_singleton in Hin as ->. done. }
    unfold Scraper.run_body in Hin.
    apply elem_of_trace_bind in Hin as [Hin|(fd & _ & Hin)];
      [destruct (Habsurd _ _ (get_login_form_data_not_presenter self w) Hin)|].
    apply elem_of_trace_bind in Hin as [Hin|(_ & _ & Hin)];
      [apply list_elem_of_singleton in Hin as ->; done|].
    apply elem_of_trace_try_except_else in Hin
      as [Hin|[(r0 & _ & Hin)|(e & h & _ & Hsel & Hin)]].
    { destruct (Habsurd _ _ (login_request_not_presenter self w fd) Hin). }
    2: { simpl in Hsel. destruct (is_RequestException e); [|done].
         injection Hsel as <-.
         apply list_elem_of_singleton in Hin as ->. done. }
    apply elem_of_trace_bind in Hin as [Hin|(ok & _ & Hin)];
      [destruct (Habsurd _ _ (check_auth_success_not_presenter r0) Hin)|].
    destruct ok; cbn [negb] in Hin; [|by apply elem_of_nil in Hin].
    apply elem_of_trace_bind in Hin as [Hin|(_ & _ & Hin)];
      [apply list_elem_of_singleton in Hin as ->; done|].
    apply elem_of_trace_try_except_else in Hin
      as [Hin|[(r & Hr & Hin)|(e & h & _ & Hsel & Hin)]].
    { destruct (Habsurd _ _ (table_request_not_presenter self w) Hin). }
    2: { simpl in Hsel. destruct (is_RequestException e); [|done].
         injection Hsel as <-.
         apply list_elem_of_singleton in Hin as ->. done. }
    apply table_request_returns in Hr as [Hget _].
    apply elem_of_trace_bind in Hin as [Hin|(parsed & Hparsed & Hin)];
      [destruct (Habsurd _ _ (parse_table_data_not_presenter w (text r)) Hin)|].
    destruct parsed as [[headers|] [rows|]];
      try (by apply elem_of_nil in Hin).
    destruct (Scraper.truthy headers) eqn:Hh;
      [|by apply elem_of_nil in Hin].
    destruct (Scraper.truthy rows) eqn:Hr;
      [|by apply elem_of_nil in Hin].
    exists r, headers, rows.
    split; [exact Hget|]. split; [exact Hparsed|].
    split; by apply truthy_nonempty. }
  split; [exact Hmain|].
  intros r headers rows Hget Hparse Hempty ev Hin.
  destruct (presenter_event ev) eqn:Hev; [|done].
  destruct (Hmain ev Hin Hev) as (r' & h' & rows' & Hget' & Hparse' & Hh & Hr).
  rewrite Hget in Hget'. injection Hget' as <-.
  rewrite Hparse in Hparse'. injection Hparse' as <- <-.
  by destruct Hempty.
Qed.

Lemma presenter_only_when_truthy_witness :
  (exists r headers rows,
      session_get Samples.happy (Scraper.table_url Samples.self) = inr r
      /\ result (Scraper._parse_table_data Samples.happy (text r))
         = Return (Some headers, Some rows)
      /\ headers <> [] /\ rows <> [])
  /\ (forall ev : event,
         ev ∈ trace (Scraper.run Samples.self Samples.empty_body) ->
         presenter_event ev = false)
  /\ (forall ev : event,
         ev ∈ trace (Scraper.run Samples.self Samples.no_heading) ->
         presenter_event ev = false).
Proof.
  split; [|split].
  - apply (proj1 (presenter_only_when_truthy Samples.self Samples.happy)
                 (Print Banner)); [|reflexivity].
    apply list_elem_of_In. vm_compute. tauto.
  - apply (proj2 (presenter_only_when_truthy Samples.self Samples.empty_body)
                 {| status_code := 200; text := "table" |} ["ID"; "Name"] []);
      [reflexivity | vm_compute; reflexivity | right; reflexivity].
  - apply (proj2 (presenter_only_when_truthy Samples.self Samples.no_heading)
                 {| status_code := 200; text := "table" |} [] [["42"]]);
      [reflexivity | vm_compute; reflexivity | left; reflexivity].
Defined.

Lemma get_login_form_data_get_fails (self : scraper) (w : world) (e : exn) :
  session_get w (Scraper.login_url self) = inl e ->
  result (Scraper._get_login_form_data self w) = Raise e.
Proof.
  intros Hget. unfold Scraper._get_login_form_data, get. rewrite Hget.
  by destruct e.
Qed.

Lemma get_login_form_data_bad_status (self : scraper) (w : world)
      (r : response) :
  session_get w (Scraper.login_url self) = inr r ->
  ~ status_ok r ->
  result (Scraper._get_login_form_data self w)
  = Raise (HTTPError (status_code r)).
Proof.
  intros Hget Hbad. unfold status_ok in Hbad.
  apply not_false_is_true in Hbad.
  unfold Scraper._get_login_form_data, get. rewrite Hget. cbn.
  unfold raise_for_status. by rewrite Hbad.
Qed.

Lemma get_login_form_data_markup_rejected (self : scraper) (w : world)
      (r : response) :
  session_get w (Scraper.login_url self) = inr r ->
  status_ok r ->
  BeautifulSoup w (text r) = None ->
  Scraper._get_login_form_data self w =
  ([Log INFO FetchingLoginPage; Get (Scraper.login_url self);
    Log ERROR (LoginFormUnexpected ParserRejectedMarkup)],
   Raise ParserRejectedMarkup).
Proof.
  intros Hget Hok Hsoup. unfold status_ok in Hok.
  unfold Scraper._get_login_form_data, get. rewrite Hget. cbn.
  unfold raise_for_status. rewrite Hok. cbn.
  unfold html_parser. by rewrite Hsoup.
Qed.

Lemma get_login_form_data_no_form (self : scraper) (w : world)
      (r : response) (soup : node) :
  session_get w (Scraper.login_url self) = inr r ->
  status_ok r ->
  BeautifulSoup w (text r) = Some soup ->
  Soup.find soup "form" [("id", "login_form")] = None ->
  Scraper._get_login_form_data self w =
  ([Log INFO FetchingLoginPage; Get (Scraper.login_url self);
    Log ERROR LoginFormMissing;
    Log ERROR (LoginFormUnexpected ValueError)],
   Raise ValueError).
Proof.
  intros Hget Hok Hsoup Hform. unfold status_ok in Hok.
  unfold Scraper._get_login_form_data, get. rewrite Hget. cbn.
  unfold raise_for_status. rewrite Hok. cbn.
  unfold html_parser. rewrite Hsoup. cbn. by rewrite Hform.
Qed.

Lemma trace_log (l : level) (m : message) : trace (log l m) = [Log l m].
Proof. reflexivity. Qed.

Lemma result_log (l : level) (m : message) : result (log l m) = Return tt.
Proof. reflexivity. Qed.

Lemma trace_ret {A} (a : A) : trace (ret a) = [].
Proof. reflexivity. Qed.

Lemma result_ret {A} (a : A) : result (ret a) = Return a.
Proof. reflexivity. Qed.

(** Computes the trace and the result of a composed computation from
    those of its parts. *)
Ltac run_steps :=
  repeat (progress
            (rewrite ?trace_try_except_else, ?result_try_except_else,
               ?trace_bind, ?result_bind, ?trace_log, ?result_log,
               ?trace_ret, ?result_ret;
             cbv beta iota)).

Section RunFailures.

Variable self : scraper.
Variable w : world.

Lemma run_handled_fetch_fails (e : exn) :
  result (Scraper._get_login_form_data self w) = Raise e ->
  is_Exception e = true ->
  Scraper.run_handled self w =
  (trace (Scraper._get_login_form_data self w)
     ++ [Log CRITICAL (CriticalFailure e)],
   Return tt).
Proof.
  intros Hfetch Hexc. rewrite (M_eta (Scraper.run_handled self w)).
  unfold Scraper.run_handled, try_except, Scraper.run_body.
  run_steps. rewrite Hfetch. cbn [select]. rewrite Hexc. run_steps.
  by rewrite app_nil_r.
Qed.

Lemma run_handled_login_fails (fd : gmap string string) (e : exn) :
  result (Scraper._get_login_form_data self w) = Return fd ->
  result (Scraper.login_request self w fd) = Raise e ->
  is_RequestException e = true ->
  Scraper.run_handled self w =
  (trace (Scraper._get_login_form_data self w)
     ++ [Log INFO SendingCredentials]
     ++ trace (Scraper.login_request self w fd)
     ++ [Log ERROR (AuthRequestFailed e)],
   Return tt).
Proof.
  intros Hfetch Hlogin Hreq. rewrite (M_eta (Scraper.run_handled self w)).
  unfold Scraper.run_handled, try_except, Scraper.run_body.
  run_steps. rewrite Hfetch. run_steps. rewrite Hlogin.
  cbn [select]. rewrite Hreq. run_steps.
  by rewrite ?app_nil_r, <- ?(assoc_L (++)).
Qed.

Lemma run_handled_table_fails (fd : gmap string string) (r : response)
      (e : exn) :
  result (Scraper._get_login_form_data self w) = Return fd ->
  result (Scraper.login_request self w fd) = Return r ->
  result (Scraper._check_auth_success r) = Return true ->
  result (Scraper.table_request self w) = Raise e ->
  is_RequestException e = true ->
  Scraper.run_handled self w =
  (trace (Scraper._get_login_form_data self w)
     ++ [Log INFO SendingCredentials]
     ++ trace (Scraper.login_request self w fd)
     ++ trace (Scraper._check_auth_success r)
     ++ [Log INFO (FetchingTable (table_name self))]
     ++ trace (Scraper.table_request self w)
     ++ [Log ERROR (TableRequestFailed e)],
   Return tt).
Proof.
  intros Hfetch Hlogin Hauth Htable Hreq.
  rewrite (M_eta (Scraper.run_handled self w)).
  unfold Scraper.run_handled, try_except, Scraper.run_body.
  run_steps. rewrite Hfetch. run_steps. rewrite Hlogin. run_steps.
  rewrite Hauth. cbn [negb]. run_steps. rewrite Htable.
  cbn [select]. rewrite Hreq. run_steps.
  by rewrite ?app_nil_r, <- ?(assoc_L (++)).
Qed.

Lemma run_handled_parse_fails (fd : gmap string string) (r r' : response)
      (e : exn) :
  result (Scraper._get_login_form_data self w) = Return fd ->
  result (Scraper.login_request self w fd) = Return r ->
  result (Scraper._check_auth_success r) = Return true ->
  result (Scraper.table_request self w) = Return r' ->
  result (Scraper.parse_table_body w (text r')) = Raise e ->
  is_Exception e = true ->
  Scraper.run_handled self w =
  (trace (Scraper._get_login_form_data self w)
     ++ [Log INFO SendingCredentials]
     ++ trace (Scraper.login_request self w fd)
     ++ trace (Scraper._check_auth_success r)
     ++ [Log INFO (FetchingTable (table_name self))]
     ++ trace (Scraper.table_request self w)
     ++ trace (Scraper.parse_table_body w (text r'))
     ++ [Log ERROR (ParseFailed e)],
   Return tt).
Proof.
  intros Hfetch Hlogin Hauth Htable Hparse Hclass.
  rewrite (M_eta (Scraper.run_handled self w)).
  unfold Scraper.run_handled, try_except, Scraper.run_body,
    Scraper._parse_table_data.
  run_steps. rewrite Hfetch. run_steps. rewrite Hlogin. run_steps.
  rewrite Hauth. cbn [negb]. run_steps. rewrite Htable. run_steps.
  unfold try_except. run_steps. rewrite Hparse.
  cbn [select]. rewrite Hclass. run_steps.
  by rewrite ?app_nil_r, <- ?(assoc_L (++)).
Qed.

End RunFailures.

Lemma parse_table_body_raises_Exception (w : world) (html : string)
      (e : exn) :
  result (Scraper.parse_table_body w html) = Raise e -> is_Exception e = true.
Proof.
  intros He. destruct (parse_table_body_raises _ _ _ He) as [_ Hcause].
  by destruct Hcause as [[-> _]|[-> _]].
Qed.


(** C8. A failure while fetching the login form (the request raising, a
    status that [raise_for_status] rejects, markup the parser rejects, a
    missing form) leaves [_get_login_form_data] as an exception, and the
    handler of the outer [try] of [run] logs every such exception that
    derives from [Exception] at critical severity and ends the guarded
    body normally, nothing else having been attempted. A request failure
    of the login POST and a request failure of the table GET are each
    followed by one error log, after which the guarded body ends normally.
    So is every exception raised while parsing the table that derives from
    [Exception], and those are all there are: the parser rejecting the
    markup and the missing [tbody]. In each case there is no further
    request, no critical log and no output. *)
Theorem failure_propagation_policy (self : scraper) (w : world) :
  (forall e,
      session_get w (Scraper.login_url self) = inl e ->
      result (Scraper._get_login_form_data self w) = Raise e)
  /\ (forall r,
         session_get w (Scraper.login_url self) = inr r ->
         ~ status_ok r ->
         result (Scraper._get_login_form_data self w)
         = Raise (HTTPError (status_code r)))
  /\ (forall r,
         session_get w (Scraper.login_url self) = inr r ->
         status_ok r ->
         BeautifulSoup w (text r) = None ->
         result (Scraper._get_login_form_data self w)
         = Raise ParserRejectedMarkup)
  /\ (forall r soup,
         session_get w (Scraper.login_url self) = inr r ->
         status_ok r ->
         BeautifulSoup w (text r) = Some soup ->
         Soup.find soup "form" [("id", "login_form")] = None ->
         result (Scraper._get_login_form_data self w) = Raise ValueError)
  /\ (forall e,
         result (Scraper._get_login_form_data self w) = Raise e ->
         is_Exception e = true ->
         Scraper.run_handled self w =
         (trace (Scraper._get_login_form_data self w)
            ++ [Log CRITICAL (CriticalFailure e)],
          Return tt))
  /\ (forall fd e,
         result (Scraper._get_login_form_data self w) = Return fd ->
         result (Scraper.login_request self w fd) = Raise e ->
         is_RequestException e = true ->
         Scraper.run_handled self w =
         (trace (Scraper._get_login_form_data self w)
            ++ [Log INFO SendingCredentials]
            ++ trace (Scraper.login_request self w fd)
            ++ [Log ERROR (AuthRequestFailed e)],
          Return tt))
  /\ (forall fd r e,
         result (Scraper._get_login_form_data self w) = Return fd ->
         result (Scraper.login_request self w fd) = Return r ->
         result (Scraper._check_auth_success r) = Return true ->
         result (Scraper.table_request self w) = Raise e ->
         is_RequestException e = true ->
         Scraper.run_handled self w =
         (trace (Scraper._get_login_form_data self w)
            ++ [Log INFO SendingCredentials]
            ++ trace (Scraper.login_request self w fd)
            ++ trace (Scraper._check_auth_success r)
            ++ [Log INFO (FetchingTable (table_name self))]
            ++ trace (Scraper.table_request self w)
            ++ [Log ERROR (TableRequestFailed e)],
          Return tt))
  /\ (forall fd r r' e,
         result (Scraper._get_login_form_data self w) = Return fd ->
         result (Scraper.login_request self w fd) = Return r ->
         result (Scraper._check_auth_success r) = Return true ->
         result (Scraper.table_request self w) = Return r' ->
         result (Scraper.parse_table_body w (text r')) = Raise e ->
         is_Exception e = true ->
         Scraper.run_handled self w =
         (trace (Scraper._get_login_form_data self w)
            ++ [Log INFO SendingCredentials]
            ++ trace (Scraper.login_request self w fd)
            ++ trace (Scraper._check_auth_success r)
            ++ [Log INFO (FetchingTable (table_name self))]
            ++ trace (Scraper.table_request self w)
            ++ trace (Scraper.parse_table_body w (text r'))
            ++ [Log ERROR (ParseFailed e)],
          Return tt))
  /\ (forall html e,
         result (Scraper.parse_table_body w html) = Raise e ->
         is_Exception e = true
         /\ ((e = ParserRejectedMarkup /\ BeautifulSoup w html = None)
             \/ (e = AttributeError
                 /\ exists soup table,
                     BeautifulSoup w html = Some soup
                     /\ Soup.find soup "table" [("class", "table_results")]
                        = Some table
                     /\ Soup.find table "tbody" [] = None)))
  /\ (forall html,
         BeautifulSoup w html = None ->
         result (Scraper.parse_table_body w html) = Raise ParserRejectedMarkup).
Proof.
  split; [|split; [|split; [|split; [|split; [|split; [|split;
    [|split; [|split]]]]]]]].
  - apply get_login_form_data_get_fails.
  - apply get_login_form_data_bad_status.
  - intros r Hget Hok Hsoup.
    by rewrite (get_login_form_data_markup_rejected _ _ _ Hget Hok Hsoup).
  - intros r soup Hget Hok Hsoup Hform.
    by rewrite (get_login_form_data_no_form _ _ _ _ Hget Hok Hsoup Hform).
  - apply run_handled_fetch_fails.
  - apply run_handled_login_fails.
  - apply run_handled_table_fails.
  - apply run_handled_parse_fails.
  - intros html e He. split.
    + by apply (parse_table_body_raises_Exception w html).
    + by destruct (parse_table_body_raises _ _ _ He).
  - intros html Hsoup. by destruct (parse_table_rejected _ _ Hsoup) as [-> _].
Qed.

Lemma failure_propagation_policy_witness :
  Scraper.run_handled Samples.self Samples.offline =
  ([Log INFO FetchingLoginPage;
    Get "http://pma.test/index.php?route=/";
    Log ERROR (LoginFormRequestFailed RequestException);
    Log CRITICAL (CriticalFailure RequestException)],
   Return tt)
  /\ Scraper.run_handled Samples.self Samples.login_rejected_markup =
     ([Log INFO FetchingLoginPage;
       Get "http://pma.test/index.php?route=/";
       Log ERROR (LoginFormUnexpected ParserRejectedMarkup);
       Log CRITICAL (CriticalFailure ParserRejectedMarkup)],
      Return tt)
  /\ (result (Scraper.run_handled Samples.self Samples.login_rejected)
      = Return tt
      /\ last (trace (Scraper.run_handled Samples.self Samples.login_rejected))
         = Some (Log ERROR (AuthRequestFailed (HTTPError 500))))
  /\ (result (Scraper.run_handled Samples.self Samples.table_unreachable)
      = Return tt
      /\ last (trace (Scraper.run_handled Samples.self
                                          Samples.table_unreachable))
         = Some (Log ERROR (TableRequestFailed RequestException)))
  /\ (result (Scraper.run_handled Samples.self Samples.no_tbody) = Return tt
      /\ last (trace (Scraper.run_handled Samples.self Samples.no_tbody))
         = Some (Log ERROR (ParseFailed AttributeError)))
  /\ (result (Scraper.run_handled Samples.self Samples.table_rejected)
      = Return tt
      /\ last (trace (Scraper.run_handled Samples.self Samples.table_rejected))
         = Some (Log ERROR (ParseFailed ParserRejectedMarkup))).
Proof.
  split; [|split; [|split; [|split; [|split]]]].
  - destruct (failure_propagation_policy Samples.self Samples.offline)
      as (Hget & _ & _ & _ & Hrun & _).
    rewrite (Hrun RequestException); [reflexivity| |reflexivity].
    apply Hget. reflexivity.
  - destruct (failure_propagation_policy Samples.self
                                         Samples.login_rejected_markup)
      as (_ & _ & Hmarkup & _ & Hrun & _).
    rewrite (Hrun ParserRejectedMarkup); [reflexivity| |reflexivity].
    apply (Hmarkup {| status_code := 200; text := "login" |}); reflexivity.
  - destruct (failure_propagation_policy Samples.self Samples.login_rejected)
      as (_ & _ & _ & _ & _ & Hrun & _).
    rewrite (Hrun (Scraper.form_data_of Samples.self
                     (Samples.el "form" [("id", "login_form")]
                        [Samples.hidden_input "csrf" "xyz"]))
                  (HTTPError 500));
      [split; vm_compute; reflexivity | vm_compute; reflexivity
       | reflexivity | reflexivity].
  - destruct (failure_propagation_policy Samples.self
                                         Samples.table_unreachable)
      as (_ & _ & _ & _ & _ & _ & Hrun & _).
    rewrite (Hrun (Scraper.form_data_of Samples.self
                     (Samples.el "form" [("id", "login_form")]
                        [Samples.hidden_input "csrf" "xyz"]))
                  {| status_code := 200;
                     text := "<div id='pma_navigation_tree'>" |}
                  RequestException);
      [split; vm_compute; reflexivity | vm_compute; reflexivity
       | reflexivity | reflexivity | reflexivity | reflexivity].
  - destruct (failure_propagation_policy Samples.self Samples.no_tbody)
      as (_ & _ & _ & _ & _ & _ & _ & Hrun & Hcause & _).
    rewrite (Hrun (Scraper.form_data_of Samples.self
                     (Samples.el "form" [("id", "login_form")]
                        [Samples.hidden_input "csrf" "xyz"]))
                  {| status_code := 200;
                     text := "<div id='pma_navigation_tree'>" |}
                  {| status_code := 200; text := "table" |}
                  AttributeError);
      [split; vm_compute; reflexivity | vm_compute; reflexivity
       | reflexivity | reflexivity | reflexivity | reflexivity |].
    apply (Hcause "table" AttributeError). reflexivity.
  - destruct (failure_propagation_policy Samples.self Samples.table_rejected)
      as (_ & _ & _ & _ & _ & _ & _ & Hrun & Hcause & Hreject).
    rewrite (Hrun (Scraper.form_data_of Samples.self
                     (Samples.el "form" [("id", "login_form")]
                        [Samples.hidden_input "csrf" "xyz"]))
                  {| status_code := 200;
                     text := "<div id='pma_navigation_tree'>" |}
                  {| status_code := 200; text := "table" |}
                  ParserRejectedMarkup);
      [split; vm_compute; reflexivity | vm_compute; reflexivity
       | reflexivity | reflexivity | reflexivity | | reflexivity].
    apply (Hreject "table"). reflexivity.
Defined.

(** * Further properties *)

(** ** What a run can raise *)

Section RaisesOnly.

Variable P : exn -> bool.

Lemma raises_only_ret {A} (a : A) : raises_only P (ret a).
Proof. by intros e. Qed.

Lemma raises_only_raise {A} (e : exn) : P e = true -> raises_only P (@raise A e).
Proof. by intros HP e' [= <-]. Qed.

Lemma raises_only_emit (ev : event) : raises_only P (emit ev).
Proof. by intros e. Qed.

Lemma raises_only_bind {A B} (m : M A) (k : A -> M B) :
  raises_only P m -> (forall a, raises_only P (k a)) ->
  raises_only P (m ≫= k).
Proof.
  intros Hm Hk e. rewrite result_bind.
  destruct (result m) as [a|e'] eqn:Hres; [apply Hk|].
  intros [= <-]. by apply Hm.
Qed.

Lemma raises_only_try_except_else {A B} (m : M A) hs (k : A -> M B) :
  raises_only P m ->
  Forall (fun c : clause B =>
            forall e, c.1 e = true -> raises_only P (c.2 e)) hs ->
  (forall a, raises_only P (k a)) ->
  raises_only P (try_except_else m hs k).
Proof.
  intros Hm Hhs Hk e. rewrite result_try_except_else.
  destruct (result m) as [a|e'] eqn:Hres; [apply Hk|].
  assert (forall h, select hs e' = Some h -> raises_only P (h e')) as Hsel.
  { clear -Hhs. induction Hhs as [|[test h'] hs Hh _ IH]; simpl; [done|].
    intros h. destruct (test e') eqn:Htest; [|apply IH].
    intros [= <-]. by apply Hh. }
  destruct (select hs e') as [h|]; [by apply Hsel|].
  intros [= <-]. by apply Hm.
Qed.

Lemma raises_only_try_except {A} (m : M A) hs :
  raises_only P m ->
  Forall (fun c : clause A =>
            forall e, c.1 e = true -> raises_only P (c.2 e)) hs ->
  raises_only P (try_except m hs).
Proof.
  intros Hm Hhs. apply raises_only_try_except_else; [done|done|].
  intros a. apply raises_only_ret.
Qed.

Lemma raises_only_for_each {A} (l : list A) (body : A -> M unit) :
  (forall x, raises_only P (body x)) -> raises_only P (for_each l body).
Proof.
  intros Hbody. induction l as [|x l IH]; simpl; [apply raises_only_ret|].
  apply raises_only_bind; [apply Hbody|done].
Qed.

End RaisesOnly.

Section GentleWorld.

Variable self : scraper.
Variable w : world.
Hypothesis Hworld : only_Exceptions w.

Lemma gentle_get (url : string) : raises_only is_Exception (get w url).
Proof.
  destruct Hworld as (Hget & _). unfold get.
  apply raises_only_bind; [apply raises_only_emit|intros _].
  destruct (session_get w url) as [e|r] eqn:He;
    [apply raises_only_raise; eauto|apply raises_only_ret].
Qed.

Lemma gentle_post (url : string) (data : gmap string string) :
  raises_only is_Exception (post w url data).
Proof.
  destruct Hworld as (_ & Hpost & _). unfold post.
  apply raises_only_bind; [apply raises_only_emit|intros _].
  destruct (session_post w url data) as [e|r] eqn:He;
    [apply raises_only_raise; eauto|apply raises_only_ret].
Qed.

Lemma gentle_print (x : printed) : raises_only is_Exception (print w x).
Proof.
  destruct Hworld as (_ & _ & Hout & _). unfold print.
  destruct (stdout w x) as [e|] eqn:He;
    [apply raises_only_raise; eauto|apply raises_only_emit].
Qed.

Lemma gentle_raise_for_status (r : response) :
  raises_only is_Exception (raise_for_status r).
Proof.
  unfold raise_for_status.
  destruct (_ && _); [by apply raises_only_raise|apply raises_only_ret].
Qed.

Lemma gentle_html_parser (html : string) :
  raises_only is_Exception (html_parser w html).
Proof.
  unfold html_parser.
  destruct (BeautifulSoup w html);
    [apply raises_only_ret|by apply raises_only_raise].
Qed.

(** Splits a goal [raises_only is_Exception m] along the structure of
    [m]. *)
Ltac gentle :=
  repeat first
    [ apply raises_only_ret
    | apply gentle_html_parser
    | apply raises_only_emit
    | apply gentle_get
    | apply gentle_post
    | apply gentle_print
    | apply gentle_raise_for_status
    | apply raises_only_raise; reflexivity
    | apply raises_only_raise;
      match goal with H : _ ?e = true |- _ ?e = true => by destruct e end
    | apply raises_only_bind; [|intros ?]
    | apply raises_only_for_each; intros ?
    | apply raises_only_try_except_else; [| |intros ?]
    | apply raises_only_try_except
    | match goal with
      | |- Forall _ (_ :: _) => constructor; [intros ? ?; simpl in *|]
      | |- Forall _ [] => constructor
      | |- raises_only _ (log _ _) => apply raises_only_emit
      | |- raises_only _ (deref ?o) => destruct o
      | |- raises_only _ (match ?x with _ => _ end) => destruct x
      end ].

Lemma run_body_raises_only_Exception :
  raises_only is_Exception (Scraper.run_body self w).
Proof.
  unfold Scraper.run_body, Scraper._get_login_form_data,
    Scraper.login_request, Scraper.table_request,
    Scraper._check_auth_success, Scraper._parse_table_data,
    Scraper.parse_table_body, Scraper._print_results.
  gentle.
Qed.

End GentleWorld.

Lemma run_handled_result (self : scraper) (w : world) :
  result (Scraper.run_handled self w) = Return tt
  \/ exists e, result (Scraper.run_handled self w) = Raise e
               /\ is_Exception e = false
               /\ result (Scraper.run_body self w) = Raise e.
Proof.
  unfold Scraper.run_handled. rewrite result_try_except.
  destruct (result (Scraper.run_body self w)) as [[]|e]; [by left|].
  simpl. destruct (is_Exception e) eqn:He; [by left|right; eauto].
Qed.

Lemma run_finally_cases (w : world) :
  match session_close w with
  | None => Scraper.run_finally w = ([Close; Log INFO SessionClosed], Return tt)
  | Some e =>
      Scraper.run_finally w =
      if is_Exception e
      then ([Close; Log ERROR (SessionCloseFailed e)], Return tt)
      else ([Close], Raise e)
  end.
Proof.
  unfold Scraper.run_finally, close.
  by destruct (session_close w) as [[]|].
Qed.

(** X1. [run] never ends with an exception that derives from [Exception]:
    it returns, or it raises something outside that class. In a world
    whose requests, console and session raise nothing outside that class,
    it returns. *)
Theorem run_raises_no_Exception (self : scraper) (w : world) :
  (result (Scraper.run self w) = Return tt
   \/ exists e, result (Scraper.run self w) = Raise e
                /\ is_Exception e = false)
  /\ (only_Exceptions w -> result (Scraper.run self w) = Return tt).
Proof.
  unfold Scraper.run. rewrite result_try_finally.
  pose proof (run_finally_cases w) as Hfin.
  pose proof (run_handled_result self w) as Hhandled.
  split.
  - destruct (session_close w) as [e|]; rewrite Hfin.
    + destruct (is_Exception e) eqn:He; simpl; [|right; eauto].
      destruct Hhandled as [->|(e' & -> & He' & _)]; [by left|right; eauto].
    + simpl. destruct Hhandled as [->|(e' & -> & He' & _)];
        [by left|right; eauto].
  - intros Hworld.
    assert (result (Scraper.run_handled self w) = Return tt) as ->.
    { destruct Hhandled as [->|(e & _ & He & Hbody)]; [done|].
      apply (run_body_raises_only_Exception self w Hworld) in Hbody.
      congruence. }
    destruct (session_close w) as [e|] eqn:Hclose; rewrite Hfin; [|done].
    destruct Hworld as (_ & _ & _ & Hc). by rewrite (Hc e Hclose).
Qed.

Lemma run_raises_no_Exception_witness :
  result (Scraper.run Samples.self Samples.offline) = Return tt.
Proof.
  apply (run_raises_no_Exception Samples.self Samples.offline).
  repeat split; simpl; intros; simplify_eq; done.
Defined.

(** X2. When closing the session raises an exception that derives from
    [Exception], the run logs it and ends as its guarded body ended; when
    it raises anything else, that exception replaces the outcome of the
    run. In both cases nothing happens after the close but the log. *)
Theorem close_failure (self : scraper) (w : world) (e : exn) :
  session_close w = Some e ->
  (is_Exception e = true ->
   Scraper.run self w =
   (trace (Scraper.run_handled self w)
      ++ [Close; Log ERROR (SessionCloseFailed e)],
    result (Scraper.run_handled self w)))
  /\ (is_Exception e = false ->
      Scraper.run self w =
      (trace (Scraper.run_handled self w) ++ [Close], Raise e)).
Proof.
  intros Hclose. pose proof (run_finally_cases w) as Hfin.
  rewrite Hclose in Hfin. unfold Scraper.run. rewrite Hfin.
  split; intros ->; by destruct (Scraper.run_handled self w).
Qed.

Lemma close_failure_witness :
  Scraper.run Samples.self MoreSamples.close_fails =
  (trace (Scraper.run_handled Samples.self MoreSamples.close_fails)
     ++ [Close; Log ERROR (SessionCloseFailed OtherException)],
   Return tt)
  /\ Scraper.run Samples.self MoreSamples.close_interrupted =
     (trace (Scraper.run_handled Samples.self MoreSamples.close_interrupted)
        ++ [Close],
      Raise KeyboardInterrupt).
Proof.
  split.
  - destruct (close_failure Samples.self MoreSamples.close_fails
                            OtherException) as [Hrun _]; [reflexivity|].
    rewrite Hrun; [|reflexivity]. f_equal.
  - destruct (close_failure Samples.self MoreSamples.close_interrupted
                            KeyboardInterrupt) as [_ Hrun]; [reflexivity|].
    rewrite Hrun; reflexivity.
Defined.

(** ** The requests of a run *)

Lemma requests_app (t1 t2 : list event) :
  requests (t1 ++ t2) = requests t1 ++ requests t2.
Proof. apply List.filter_app. Qed.

Lemma requests_none {A} (m : M A) :
  all_events not_request m -> requests (trace m) = [].
Proof.
  unfold all_events, requests, not_request.
  induction (trace m) as [|ev t IH]; simpl; [done|].
  intros [Hev Ht]%andb_true_iff.
  destruct (is_request ev); [done|]. by apply IH.
Qed.

Lemma print_results_all_events (P : event -> bool) (w : world)
      (headers : list string) (rows : list (list string)) :
  (forall x, P (Print x) = true) ->
  (forall l m, P (Log l m) = true) ->
  all_events P (Scraper._print_results w headers rows).
Proof.
  intros HPrint HLog.
  assert (forall x, all_events P (print w x)) as Hprint.
  { intros x. unfold print.
    destruct (stdout w x); [done|by apply all_events_emit]. }
  unfold Scraper._print_results.
  apply all_events_try_except.
  - repeat (apply all_events_bind; [apply Hprint|intros _]).
    apply all_events_bind; [|intros _; by apply all_events_log].
    apply all_events_for_each. intros row. apply Hprint.
  - constructor; [|constructor]. intros e.
    unfold all_events. simpl. by rewrite HLog.
Qed.

Section Requests.

Variable self : scraper.
Variable w : world.

Lemma requests_get_login_form_data :
  requests (trace (Scraper._get_login_form_data self w))
  = [Get (Scraper.login_url self)].
Proof.
  unfold Scraper._get_login_form_data, get, raise_for_status.
  destruct (session_get w (Scraper.login_url self)) as [e|r];
    [by destruct e|]. cbn.
  destruct (_ && _); [done|]. cbn.
  unfold html_parser.
  destruct (BeautifulSoup w (text r)) as [soup|]; [|done]. cbn.
  by destruct (Soup.find soup _ _).
Qed.

Lemma requests_login_request (fd : gmap string string) :
  requests (trace (Scraper.login_request self w fd))
  = [Post (Scraper.login_url self) fd].
Proof.
  unfold Scraper.login_request, post, raise_for_status.
  destruct (session_post w (Scraper.login_url self) fd) as [e|r];
    [done|]. cbn.
  by destruct (_ && _).
Qed.

Lemma requests_table_request :
  requests (trace (Scraper.table_request self w))
  = [Get (Scraper.table_url self)].
Proof.
  unfold Scraper.table_request, get, raise_for_status.
  destruct (session_get w (Scraper.table_url self)) as [e|r];
    [done|]. cbn.
  by destruct (_ && _).
Qed.

Lemma requests_check_auth_success (r : response) :
  requests (trace (Scraper._check_auth_success r)) = [].
Proof. rewrite check_auth_success_eq. by destruct (_ || _). Qed.

Lemma requests_parse_table_data (html : string) :
  requests (trace (Scraper._parse_table_data w html)) = [].
Proof.
  apply requests_none.
  unfold Scraper._parse_table_data, Scraper.parse_table_body. quiet.
Qed.

Lemma requests_print_results (headers : list string)
      (rows : list (list string)) :
  requests (trace (Scraper._print_results w headers rows)) = [].
Proof. apply requests_none. by apply print_results_all_events. Qed.

Lemma requests_run_finally : requests (trace (Scraper.run_finally w)) = [].
Proof.
  pose proof (run_finally_cases w) as Hfin.
  destruct (session_close w) as [e|]; rewrite Hfin; [|done].
  by destruct (is_Exception e).
Qed.

End Requests.

Lemma requests_run_handled (self : scraper) (w : world) :
  requests (trace (Scraper.run_handled self w))
  = requests (trace (Scraper.run_body self w)).
Proof.
  unfold Scraper.run_handled. rewrite trace_try_except, requests_app.
  destruct (result (Scraper.run_body self w)) as [[]|e];
    [by rewrite app_nil_r|].
  simpl. destruct (is_Exception e); by rewrite app_nil_r.
Qed.

Lemma single_app_eq {A} (x : A) (l l' : list A) :
  l = l' -> [x] ++ l = x :: l'.
Proof. by intros ->. Qed.

(** X3. The HTTP requests of a run, in order: always the GET of the login
    page; then, only if the login form was read, the POST of exactly the
    payload read, to the login URL; then, only if that POST was answered
    with an accepted status and a body that holds one of the two markers,
    the GET of the table page. Nothing else is ever requested. *)
Theorem run_requests (self : scraper) (w : world) :
  requests (trace (Scraper.run self w)) =
  Get (Scraper.login_url self)
  :: match result (Scraper._get_login_form_data self w) with
     | Raise _ => []
     | Return form_data =>
         Post (Scraper.login_url self) form_data
         :: match result (Scraper.login_request self w form_data) with
            | Raise _ => []
            | Return r =>
                if Str.contains "frame_navigation" (text r)
                   || Str.contains "pma_navigation_tree" (text r)
                then [Get (Scraper.table_url self)]
                else []
            end
     end.
Proof.
  unfold Scraper.run.
  rewrite trace_try_finally, requests_app, requests_run_finally, app_nil_r.
  rewrite requests_run_handled. unfold Scraper.run_body.
  rewrite trace_bind, requests_app, requests_get_login_form_data.
  apply single_app_eq.
  destruct (result (Scraper._get_login_form_data self w)) as [fd|e]; [|done].
  rewrite trace_bind, trace_log, result_log. cbv beta iota.
  rewrite trace_try_except_else, !requests_app, requests_login_request.
  apply single_app_eq.
  destruct (result (Scraper.login_request self w fd)) as [r|e].
  - rewrite trace_bind, requests_app, requests_check_auth_success.
    rewrite check_auth_success_eq.
    destruct (Str.contains "frame_navigation" (text r)
              || Str.contains "pma_navigation_tree" (text r)); [|done].
    cbn [app result snd negb].
    rewrite trace_bind, trace_log, result_log. cbv beta iota.
    rewrite trace_try_except_else, !requests_app, requests_table_request.
    apply single_app_eq.
    destruct (result (Scraper.table_request self w)) as [r'|e].
    + rewrite trace_bind, requests_app, requests_parse_table_data.
      destruct (result (Scraper._parse_table_data w (text r')))
        as [[[headers|] [rows|]]|e]; try done.
      destruct (_ && _); [apply requests_print_results|done].
    + simpl. by destruct (is_RequestException e).
  - simpl. by destruct (is_RequestException e).
Qed.

Example run_requests_wrong_password :
  requests (trace (Scraper.run Samples.self MoreSamples.wrong_password)) =
  [Get "http://pma.test/index.php?route=/";
   Post "http://pma.test/index.php?route=/"
        {[ "pma_username" := "root"; "pma_password" := "secret";
           "csrf" := "xyz" ]}].
Proof. vm_compute. reflexivity. Qed.

(** ** Printing, line by line *)

Lemma bind_assoc {A B C} (m : M A) (f : A -> M B) (g : B -> M C) :
  (m ≫= f) ≫= g = m ≫= (fun x => f x ≫= g).
Proof.
  destruct m as [t [a|e]]; unfold mbind, M_bind, bind; [|done].
  destruct (f a) as [t' [b|e']]; [|done].
  destruct (g b) as [t'' r]. by rewrite (assoc_L (++)).
Qed.

Lemma for_each_map {A B} (g : A -> B) (l : list A) (body : B -> M unit) :
  for_each (map g l) body = for_each l (fun x => body (g x)).
Proof. induction l as [|x l IH]; simpl; [done|by rewrite IH]. Qed.

Lemma print_results_for_each (w : world) (headers : list string)
      (rows : list (list string)) :
  Scraper._print_results w headers rows =
  try_except
    (for_each (output_lines headers rows) (print w) ;;
     log INFO ResultsPrinted)
    [ (is_Exception, fun e => log ERROR (PrintFailed e) ;; raise e) ].
Proof.
  unfold Scraper._print_results, output_lines. f_equal.
  cbn [app for_each]. rewrite for_each_map.
  by rewrite !bind_assoc.
Qed.

Lemma for_each_print_accepted (w : world) (ls : list printed) :
  Forall (fun x => stdout w x = None) ls ->
  for_each ls (print w) = (map Print ls, Return tt).
Proof.
  induction 1 as [|x ls Hx _ IH]; simpl; [done|].
  rewrite IH. unfold print. by rewrite Hx.
Qed.

Lemma for_each_print_rejected (w : world) (before after : list printed)
      (x : printed) (e : exn) :
  Forall (fun y => stdout w y = None) before ->
  stdout w x = Some e ->
  for_each (before ++ x :: after) (print w) = (map Print before, Raise e).
Proof.
  intros Hbefore Hx. induction Hbefore as [|y before Hy _ IH]; simpl.
  - unfold print. by rewrite Hx.
  - rewrite IH. unfold print. by rewrite Hy.
Qed.

Lemma print_results_accepting (w : world) (headers : list string)
      (rows : list (list string)) :
  Forall (fun x => stdout w x = None) (output_lines headers rows) ->
  Scraper._print_results w headers rows =
  (map Print (output_lines headers rows) ++ [Log INFO ResultsPrinted],
   Return tt).
Proof.
  intros Hout. rewrite print_results_for_each.
  rewrite (for_each_print_accepted _ _ Hout). cbn.
  by rewrite app_nil_r.
Qed.

(** X4. [_print_results] prints its lines (banner, header line, separator,
    one line per row) in order for as long as the console accepts them. If
    all are accepted it logs the success and returns. If one is rejected,
    the lines before it stay printed, none after it is attempted, the
    exception is logged as an error when it derives from [Exception], and
    it is raised again to the caller. *)
Theorem print_results_until_rejected (w : world) (headers : list string)
        (rows : list (list string)) :
  (Forall (fun x => stdout w x = None) (output_lines headers rows) ->
   Scraper._print_results w headers rows =
   (map Print (output_lines headers rows) ++ [Log INFO ResultsPrinted],
    Return tt))
  /\ (forall before x after e,
         output_lines headers rows = before ++ x :: after ->
         Forall (fun y => stdout w y = None) before ->
         stdout w x = Some e ->
         Scraper._print_results w headers rows =
         (map Print before
            ++ (if is_Exception e then [Log ERROR (PrintFailed e)] else []),
          Raise e)).
Proof.
  split; [apply print_results_accepting|].
  intros before x after e Hlines Hbefore Hx.
  rewrite print_results_for_each, Hlines.
  rewrite (for_each_print_rejected _ _ _ _ _ Hbefore Hx).
  destruct e; cbn; by rewrite ?app_nil_r.
Qed.

Lemma print_results_until_rejected_witness :
  Scraper._print_results Samples.happy ["ID"; "Name"] [["42"; "Alice"]] =
  ([Print Banner; Print (Line "ID | Name"); Print (Line "---------");
    Print (Line "42 | Alice"); Log INFO ResultsPrinted],
   Return tt)
  /\ Scraper._print_results MoreSamples.console_breaks
       ["ID"; "Name"] [["42"; "Alice"]] =
     ([Print Banner; Print (Line "ID | Name");
       Log ERROR (PrintFailed OtherException)],
      Raise OtherException).
Proof.
  split.
  - rewrite (proj1 (print_results_until_rejected
                      Samples.happy ["ID"; "Name"] [["42"; "Alice"]]));
      [reflexivity|].
    repeat constructor.
  - rewrite (proj2 (print_results_until_rejected
                      MoreSamples.console_breaks
                      ["ID"; "Name"] [["42"; "Alice"]])
                   [Banner; Line "ID | Name"] (Line "---------")
                   [Line "42 | Alice"] OtherException);
      [reflexivity|reflexivity|repeat constructor|reflexivity].
Defined.

(** ** Runs that get past the login request *)

Section RunOutcomes.

Variable self : scraper.
Variable w : world.

Lemma run_handled_auth_fails (fd : gmap string string) (r : response) :
  result (Scraper._get_login_form_data self w) = Return fd ->
  result (Scraper.login_request self w fd) = Return r ->
  Str.contains "frame_navigation" (text r)
  || Str.contains "pma_navigation_tree" (text r) = false ->
  Scraper.run_handled self w =
  (trace (Scraper._get_login_form_data self w)
     ++ [Log INFO SendingCredentials]
     ++ trace (Scraper.login_request self w fd)
     ++ [Log WARNING AuthFailed],
   Return tt).
Proof.
  intros Hfetch Hlogin Hmarkers.
  rewrite (M_eta (Scraper.run_handled self w)).
  unfold Scraper.run_handled, try_except, Scraper.run_body.
  run_steps. rewrite Hfetch. run_steps. rewrite Hlogin. run_steps.
  rewrite check_auth_success_eq, Hmarkers.
  cbn [trace result fst snd negb]. run_steps.
  by rewrite ?app_nil_r, <- ?(assoc_L (++)).
Qed.

Lemma run_handled_prints (fd : gmap string string) (r r' : response)
      (headers : list string) (rows : list (list string)) :
  result (Scraper._get_login_form_data self w) = Return fd ->
  result (Scraper.login_request self w fd) = Return r ->
  Str.contains "frame_navigation" (text r)
  || Str.contains "pma_navigation_tree" (text r) = true ->
  result (Scraper.table_request self w) = Return r' ->
  result (Scraper._parse_table_data w (text r'))
  = Return (Some headers, Some rows) ->
  headers <> [] ->
  rows <> [] ->
  Forall (fun x => stdout w x = None) (output_lines headers rows) ->
  Scraper.run_handled self w =
  (trace (Scraper._get_login_form_data self w)
     ++ [Log INFO SendingCredentials]
     ++ trace (Scraper.login_request self w fd)
     ++ [Log INFO AuthSucceeded; Log INFO (FetchingTable (table_name self))]
     ++ trace (Scraper.table_request self w)
     ++ trace (Scraper._parse_table_data w (text r'))
     ++ map Print (output_lines headers rows)
     ++ [Log INFO ResultsPrinted],
   Return tt).
Proof.
  intros Hfetch Hlogin Hmarkers Htable Hparse Hh Hr Hout.
  rewrite (M_eta (Scraper.run_handled self w)).
  unfold Scraper.run_handled, try_except, Scraper.run_body.
  run_steps. rewrite Hfetch. run_steps. rewrite Hlogin. run_steps.
  rewrite check_auth_success_eq, Hmarkers.
  cbn [trace result fst snd negb]. run_steps.
  rewrite Htable. run_steps. rewrite Hparse. cbv beta iota.
  destruct headers as [|h headers]; [done|].
  destruct rows as [|row rows]; [done|].
  cbn [Scraper.truthy andb].
  rewrite (print_results_accepting _ _ _ Hout).
  cbn [trace result fst snd].
  by rewrite ?app_nil_r, <- ?(assoc_L (++)).
Qed.

End RunOutcomes.

(** X5. When the login POST is answered with an accepted status and a
    body that holds neither marker, the guarded body of the run ends
    normally right after the warning of the authentication check: the
    table page is not requested and nothing is printed. *)
Theorem run_stops_when_auth_fails (self : scraper) (w : world)
        (fd : gmap string string) (r : response) :
  result (Scraper._get_login_form_data self w) = Return fd ->
  result (Scraper.login_request self w fd) = Return r ->
  ~ Str.substring_of "frame_navigation" (text r) ->
  ~ Str.substring_of "pma_navigation_tree" (text r) ->
  Scraper.run_handled self w =
  (trace (Scraper._get_login_form_data self w)
     ++ [Log INFO SendingCredentials]
     ++ trace (Scraper.login_request self w fd)
     ++ [Log WARNING AuthFailed],
   Return tt).
Proof.
  intros Hfetch Hlogin Hf%contains_false_spec Hp%contains_false_spec.
  apply (run_handled_auth_fails self w fd r); [done|done|].
  by rewrite Hf, Hp.
Qed.

Lemma run_stops_when_auth_fails_witness :
  Scraper.run_handled Samples.self MoreSamples.wrong_password =
  ([Log INFO FetchingLoginPage;
    Get "http://pma.test/index.php?route=/";
    Log DEBUG (FormDataDump
                 {[ "pma_username" := "root"; "pma_password" := "secret";
                    "csrf" := "xyz" ]});
    Log INFO SendingCredentials;
    Post "http://pma.test/index.php?route=/"
         {[ "pma_username" := "root"; "pma_password" := "secret";
            "csrf" := "xyz" ]};
    Log WARNING AuthFailed],
   Return tt).
Proof.
  rewrite (run_stops_when_auth_fails Samples.self MoreSamples.wrong_password
             (Scraper.form_data_of Samples.self
                (Samples.el "form" [("id", "login_form")]
                   [Samples.hidden_input "csrf" "xyz"]))
             {| status_code := 200; text := "<form id='login_form'>" |}).
  - vm_compute. reflexivity.
  - vm_compute. reflexivity.
  - vm_compute. reflexivity.
  - apply contains_false_spec. reflexivity.
  - apply contains_false_spec. reflexivity.
Defined.

(** X6. End to end: when the login form is read, the login POST is
    answered with a marker in its body, the table page is served, its
    parse gives a non-empty header list and a non-empty row list, the
    console accepts the lines and the session closes, the run does exactly
    this, in order: the three requests with their logs, the banner, the
    header line, the separator, one line per parsed row, the success log,
    the close and its log; and it returns. *)
Theorem run_prints_parsed_table (self : scraper) (w : world)
        (fd : gmap string string) (r r' : response)
        (headers : list string) (rows : list (list string)) :
  result (Scraper._get_login_form_data self w) = Return fd ->
  result (Scraper.login_request self w fd) = Return r ->
  Str.substring_of "frame_navigation" (text r)
  \/ Str.substring_of "pma_navigation_tree" (text r) ->
  result (Scraper.table_request self w) = Return r' ->
  result (Scraper._parse_table_data w (text r'))
  = Return (Some headers, Some rows) ->
  headers <> [] ->
  rows <> [] ->
  Forall (fun x => stdout w x = None) (output_lines headers rows) ->
  session_close w = None ->
  Scraper.run self w =
  (trace (Scraper._get_login_form_data self w)
     ++ [Log INFO SendingCredentials]
     ++ trace (Scraper.login_request self w fd)
     ++ [Log INFO AuthSucceeded; Log INFO (FetchingTable (table_name self))]
     ++ trace (Scraper.table_request self w)
     ++ trace (Scraper._parse_table_data w (text r'))
     ++ map Print (output_lines headers rows)
     ++ [Log INFO ResultsPrinted; Close; Log INFO SessionClosed],
   Return tt).
Proof.
  intros Hfetch Hlogin Hmarkers Htable Hparse Hh Hr Hout Hclose.
  assert (Str.contains "frame_navigation" (text r)
          || Str.contains "pma_navigation_tree" (text r) = true) as Hm.
  { apply orb_true_iff. by rewrite !contains_spec. }
  pose proof (run_finally_cases w) as Hfin. rewrite Hclose in Hfin.
  unfold Scraper.run.
  rewrite (run_handled_prints self w fd r r' headers rows) by done.
  rewrite Hfin. cbn [try_finally]. f_equal.
  by rewrite <- !(assoc_L (++)).
Qed.

Lemma run_prints_parsed_table_witness :
  Forall (fun ev => ev ∈ trace (Scraper.run Samples.self Samples.happy))
         [Print Banner; Print (Line "ID | Name | Email | Created");
          Print (Line "---------------------------");
          Print (Line "42 | Alice"); Close]
  /\ result (Scraper.run Samples.self Samples.happy) = Return tt.
Proof.
  rewrite (run_prints_parsed_table Samples.self Samples.happy
             (Scraper.form_data_of Samples.self
                (Samples.el "form" [("id", "login_form")]
                   [Samples.hidden_input "csrf" "xyz"]))
             {| status_code := 200;
                text := "<div id='pma_navigation_tree'>" |}
             {| status_code := 200; text := "table" |}
             ["ID"; "Name"; "Email"; "Created"] [["42"; "Alice"]]).
  - split; [|reflexivity].
    repeat constructor; apply list_elem_of_In; vm_compute; tauto.
  - vm_compute. reflexivity.
  - vm_compute. reflexivity.
  - right. apply contains_spec. reflexivity.
  - vm_compute. reflexivity.
  - vm_compute. reflexivity.
  - discriminate.
  - discriminate.
  - repeat constructor.
  - reflexivity.
Defined.

(** ** The separator line *)

Lemma length_append (a b : string) :
  String.length (a +:+ b) = String.length a + String.length b.
Proof. induction a as [|c a IH]; simpl; [done|by rewrite IH]. Qed.

Lemma length_join (sep : string) (l : list string) :
  String.length (Str.join sep l)
  = sum_list (String.length <$> l) + String.length sep * (length l - 1).
Proof.
  induction l as [|x l IH]; [simpl; lia|].
  destruct l as [|y l].
  - simpl. lia.
  - change (Str.join sep (x :: y :: l))
      with (x +:+ sep +:+ Str.join sep (y :: l)).
    rewrite !length_append, IH. rewrite !fmap_cons. simpl sum_list.
    simpl length. lia.
Qed.

(** X7. For every list of headers, empty or not, the separator line is
    exactly as long as the header line printed above it. *)
Theorem separator_as_long_as_header_line (headers : list string) :
  String.length (Str.repeat_char "-" (Scraper.separator_width headers))
  = String.length (Str.join " | " headers).
Proof.
  unfold Str.repeat_char.
  rewrite length_string_of_repeat, separator_width_eq, length_join.
  change (String.length " | ") with 3.
  destruct headers as [|h headers]; [done|]. simpl length. lia.
Qed.

(** ** Shape of the parsed rows *)

(** X8. For a results table with a [tbody], there are as many headers as
    header cells of class [column_heading] and as many rows as row
    elements in the [tbody]; the row at each position comes from the row
    element at that position and has four cells fewer than that element
    has cells, none when it has four or fewer. A row element with at most
    four cells thus gives an empty row, which is kept. *)
Theorem parse_table_row_shape (w : world) (html : string)
        (soup table tbody : node) :
  BeautifulSoup w html = Some soup ->
  Soup.find soup "table" [("class", "table_results")] = Some table ->
  Soup.find table "tbody" [] = Some tbody ->
  exists headers rows,
    result (Scraper._parse_table_data w html) = Return (Some headers, Some rows)
    /\ length headers
       = length (Soup.find_all table "th" [("class", "column_heading")])
    /\ length rows = length (Soup.find_all tbody "tr" [])
    /\ forall i tr,
        Soup.find_all tbody "tr" [] !! i = Some tr ->
        exists row,
          rows !! i = Some row
          /\ length row = length (Soup.find_all tr "td" []) - 4
          /\ (length (Soup.find_all tr "td" []) <= 4 -> row = []).
Proof.
  intros Hsoup Hfind Hbody.
  rewrite (parse_table_found _ _ _ _ _ Hsoup Hfind Hbody).
  eexists _, _. split; [reflexivity|].
  rewrite !length_map. split; [done|]. split; [done|].
  intros i tr Htr. exists (Scraper.row_data tr).
  assert (length (Scraper.row_data tr)
          = length (Soup.find_all tr "td" []) - 4) as Hlen.
  { unfold Scraper.row_data. by rewrite length_map, length_drop. }
  split; [|split; [done|]].
  - change (map Scraper.row_data (Soup.find_all tbody "tr" []))
      with (Scraper.row_data <$> Soup.find_all tbody "tr" []).
    by rewrite list_lookup_fmap, Htr.
  - intros Hshort. apply length_zero_iff_nil. lia.
Qed.

Lemma parse_table_row_shape_witness :
  result (Scraper._parse_table_data MoreSamples.short_row "table")
  = Return (Some [], Some [[]; ["7"]]).
Proof.
  destruct (parse_table_row_shape MoreSamples.short_row "table"
              MoreSamples.short_row_page
              (Samples.el "table" [("class", "table_results")]
                 [Samples.el "tbody" []
                    [Samples.el "tr" []
                       [Samples.td "edit"; Samples.td "copy";
                        Samples.td "delete"];
                     Samples.el "tr" []
                       [Samples.td "edit"; Samples.td "copy";
                        Samples.td "delete"; Samples.td ""; Samples.td "7"]]])
              (Samples.el "tbody" []
                 [Samples.el "tr" []
                    [Samples.td "edit"; Samples.td "copy";
                     Samples.td "delete"];
                  Samples.el "tr" []
                    [Samples.td "edit"; Samples.td "copy";
                     Samples.td "delete"; Samples.td ""; Samples.td "7"]]))
    as (headers & rows & Hres & _);
    [reflexivity | reflexivity | reflexivity |].
  vm_compute. reflexivity.
Defined.

(** ** Keys of the login payload *)

Lemma hidden_pairs_names (login_form : node) (k : string) :
  k ∈ (hidden_pairs login_form).*1 <->
  exists hidden,
    hidden ∈ Soup.find_all login_form "input" [("type", "hidden")]
    /\ Soup.attrs_of hidden !! "name" = Some k
    /\ is_Some (Soup.attrs_of hidden !! "value").
Proof.
  unfold hidden_pairs. rewrite list_elem_of_fmap. split.
  - intros ([k' v] & -> & (hidden & Hin & Hpair)%list_elem_of_omap).
    exists hidden. split; [done|]. unfold hidden_pair in Hpair.
    destruct (Soup.attrs_of hidden !! "name") as [n|]; [|done].
    destruct (Soup.attrs_of hidden !! "value") as [v'|]; [|done].
    injection Hpair as -> ->. eauto.
  - intros (hidden & Hin & Hname & [v Hvalue]).
    exists (k, v). split; [done|]. apply list_elem_of_omap.
    exists hidden. split; [done|]. unfold hidden_pair.
    by rewrite Hname, Hvalue.
Qed.

Lemma form_data_of_keys (self : scraper) (login_form : node) (k : string) :
  is_Some (Scraper.form_data_of self login_form !! k) <->
  k = "pma_username" \/ k = "pma_password"
  \/ k ∈ (hidden_pairs login_form).*1.
Proof.
  rewrite form_data_of_union, lookup_union_is_Some.
  unfold credentials.
  rewrite lookup_insert_is_Some', lookup_singleton_is_Some.
  assert (is_Some ((list_to_map (reverse (hidden_pairs login_form))
                    : gmap string string) !! k)
          <-> k ∈ (hidden_pairs login_form).*1) as ->.
  { rewrite <- not_eq_None_Some, <- not_elem_of_list_to_map.
    rewrite fmap_reverse, elem_of_reverse.
    destruct (decide (k ∈ (hidden_pairs login_form).*1)); tauto. }
  intuition auto.
Qed.

(** X9. The payload read from a login form has these keys and no other:
    the two credential keys, and the name of every hidden input of the form
    that carries both a [name] and a [value] attribute. A hidden input
    without a name or without a value adds nothing. *)
Theorem login_form_payload_keys (self : scraper) (w : world)
        (r : response) (soup login_form : node) :
  session_get w (Scraper.login_url self) = inr r ->
  status_ok r ->
  BeautifulSoup w (text r) = Some soup ->
  Soup.find soup "form" [("id", "login_form")] = Some login_form ->
  exists payload : gmap string string,
    result (Scraper._get_login_form_data self w) = Return payload
    /\ forall k : string,
        is_Some (payload !! k) <->
        k = "pma_username" \/ k = "pma_password"
        \/ exists hidden,
            hidden ∈ Soup.find_all login_form "input" [("type", "hidden")]
            /\ Soup.attrs_of hidden !! "name" = Some k
            /\ is_Some (Soup.attrs_of hidden !! "value").
Proof.
  intros Hget Hok Hsoup Hform.
  exists (Scraper.form_data_of self login_form).
  rewrite (get_login_form_data_found _ _ _ _ _ Hget Hok Hsoup Hform).
  split; [reflexivity|]. intros k.
  by rewrite form_data_of_keys, hidden_pairs_names.
Qed.

Lemma login_form_payload_keys_witness :
  exists payload : gmap string string,
    result (Scraper._get_login_form_data Samples.self Samples.happy)
    = Return payload
    /\ is_Some (payload !! "csrf")
    /\ ~ is_Some (payload !! "orphan").
Proof.
  destruct (login_form_payload_keys Samples.self Samples.happy
              {| status_code := 200; text := "login" |}
              Samples.login_page
              (Samples.el "form" [("id", "login_form")]
                 [Samples.hidden_input "csrf" "xyz";
                  Samples.el "input"
                    [("type", "text"); ("name", "pma_username")] [];
                  Samples.el "input"
                    [("type", "hidden"); ("name", "orphan")] []]))
    as (payload & Hres & Hkeys);
    [reflexivity | reflexivity | reflexivity | reflexivity |].
  exists payload. split; [exact Hres|]. split.
  - apply Hkeys. right. right.
    exists (Samples.hidden_input "csrf" "xyz").
    split; [|split; [reflexivity|by eexists]].
    apply list_elem_of_In. vm_compute. tauto.
  - intros [Hk|[Hk|(hidden & Hin & Hname & [v Hvalue])]]%Hkeys;
      [discriminate|discriminate|].
    apply list_elem_of_In in Hin. vm_compute in Hin.
    destruct Hin as [<-|[<-|[]]].
    + vm_compute in Hname. discriminate.
    + vm_compute in Hvalue. discriminate.
Defined.

(** ** The headers of the session *)

Lemma getitem_setitem (name key value : string)
      (h : gmap string (string * string)) :
  Headers.getitem name (Headers.setitem key value h)
  = if decide (Headers.lower key = Headers.lower name) then Some value
    else Headers.getitem name h.
Proof.
  unfold Headers.getitem, Headers.setitem. rewrite lookup_insert.
  by destruct (decide (Headers.lower key = Headers.lower name)).
Qed.

(** X10. [_setup_session] does not raise and logs once. Afterwards the
    five headers User-Agent, Referer, Accept, Accept-Language and
    Connection hold the values of the source, the Referer being the login
    URL, whatever they held before and in whatever letter case they are
    looked up; every other header is as it was. *)
Theorem setup_session_headers (self : scraper)
        (headers : gmap string (string * string)) :
  exists headers',
    Script._setup_session self headers
    = ([SetupLog INFO SessionConfigured], Return headers')
    /\ forall name : string,
        Headers.getitem name headers' =
        if decide (Headers.lower name = "user-agent")
        then Some Script.user_agent
        else if decide (Headers.lower name = "referer")
        then Some (Scraper.login_url self)
        else if decide (Headers.lower name = "accept")
        then Some Script.accept
        else if decide (Headers.lower name = "accept-language")
        then Some "en-US,en;q=0.5"
        else if decide (Headers.lower name = "connection")
        then Some "keep-alive"
        else Headers.getitem name headers.
Proof.
  exists (Headers.update (Script.default_headers self) headers).
  split; [reflexivity|]. intros name.
  unfold Headers.update, Script.default_headers. cbn [fold_left fst snd].
  rewrite !getitem_setitem.
  change (Headers.lower "User-Agent") with "user-agent".
  change (Headers.lower "Referer") with "referer".
  change (Headers.lower "Accept") with "accept".
  change (Headers.lower "Accept-Language") with "accept-language".
  change (Headers.lower "Connection") with "connection".
  repeat case_decide; congruence.
Qed.

Example setup_session_fresh_headers :
  exists headers',
    Script._setup_session Samples.self Hosts.fresh_headers
    = ([SetupLog INFO SessionConfigured], Return headers')
    /\ Headers.getitem "USER-AGENT" headers' = Some Script.user_agent
    /\ Headers.getitem "referer" headers'
       = Some "http://pma.test/index.php?route=/"
    /\ Headers.getitem "Accept-Encoding" headers' = Some "gzip, deflate"
    /\ Headers.getitem "Cookie" headers' = None.
Proof. eexists. split; [reflexivity|]. repeat split; vm_compute; reflexivity. Qed.

(** ** The script *)

Lemma run_result_cases (self : scraper) (w : world) :
  result (Scraper.run self w) = Return tt
  \/ exists e, result (Scraper.run self w) = Raise e
               /\ is_Exception e = false.
Proof.
  unfold Scraper.run. rewrite result_try_finally.
  pose proof (run_finally_cases w) as Hfin.
  pose proof (run_handled_result self w) as Hhandled.
  destruct (session_close w) as [e|]; rewrite Hfin.
  - destruct (is_Exception e) eqn:He; simpl; [|right; eauto].
    destruct Hhandled as [->|(e' & -> & He' & _)]; [by left|right; eauto].
  - simpl. destruct Hhandled as [->|(e' & -> & He' & _)];
      [by left|right; eauto].
Qed.

Section Configured.

Variable h : host.
Variables base user pass db table : string.
Hypothesis Henv : repository_env h = None.
Hypothesis Hbase : config h "PMA_BASE_URL" = inr base.
Hypothesis Huser : config h "PMA_USER_NAME" = inr user.
Hypothesis Hpass : config h "PMA_PASSWORD" = inr pass.
Hypothesis Hdb : config h "PMA_DB_NAME" = inr db.
Hypothesis Htable : config h "PMA_TABLE_NAME" = inr table.

Lemma script_configured :
  Script.script h =
  ((ConfigRead <$> Script.config_keys)
     ++ p_trace (Script.main_handled h base user pass db table),
   p_result (Script.main_handled h base user pass db table)).
Proof.
  unfold Script.script, Script.main, Script.read_config.
  rewrite Henv, Hbase, Huser, Hpass, Hdb, Htable. cbn -[Script.main_handled].
  by destruct (Script.main_handled h base user pass db table).
Qed.

End Configured.

Lemma main_handled_logging_fails (h : host)
      (base user pass db table : string) (e : exn) :
  logging_basicConfig h = Some e ->
  Script.main_handled h base user pass db table =
  if is_Exception e
  then ([SessionCreated; TopLevelCritical e], Return tt)
  else ([SessionCreated], Raise e).
Proof.
  intros Hlog.
  unfold Script.main_handled, Script.construct_and_run, Script.__init__.
  rewrite Hlog. cbn. by destruct (is_Exception e).
Qed.

Lemma main_handled_constructed (h : host)
      (base user pass db table : string) :
  logging_basicConfig h = None ->
  Script.main_handled h base user pass db table =
  ([SessionCreated; LoggingConfigured; SetupLog INFO SessionConfigured]
     ++ (ScraperEvent <$>
           trace (Scraper.run
                    {| base_url := base; username := user;
                       password := pass; db_name := db;
                       table_name := table |}
                    (session_world h))),
   result (Scraper.run
             {| base_url := base; username := user; password := pass;
                db_name := db; table_name := table |}
             (session_world h))).
Proof.
  intros Hlog.
  unfold Script.main_handled, Script.construct_and_run, Script.__init__,
    Script._setup_session.
  rewrite Hlog. cbn -[Scraper.run].
  set (self := {| base_url := base; username := user; password := pass;
                  db_name := db; table_name := table |}).
  unfold lift, p_try_except.
  destruct (run_result_cases self (session_world h))
    as [Hres|(e & Hres & He)]; rewrite Hres; cbn; [done|].
  by rewrite He.
Qed.

(** X11. A configuration that cannot be read ends the script with an
    uncaught exception before anything else happens. If the repository
    cannot be opened, nothing is read. If a key is missing, the keys
    before it have been read, in the order base URL, user name, password,
    database, table; no session is created, nothing is logged and no
    request is made. *)
Theorem script_misconfigured (h : host) :
  (forall e, repository_env h = Some e -> Script.script h = ([], Raise e))
  /\ (repository_env h = None ->
      forall before key after e,
        Script.config_keys = before ++ key :: after ->
        Forall (fun k => exists v, config h k = inr v) before ->
        config h key = inl e ->
        Script.script h = (ConfigRead <$> (before ++ [key]), Raise e)).
Proof.
  split.
  - intros e Henv. unfold Script.script. by rewrite Henv.
  - intros Henv before key after e Hkeys Hbefore Hkey.
    unfold Script.script, Script.main, Script.read_config. rewrite Henv.
    unfold Script.config_keys in Hkeys.
    repeat (destruct before as [|? before];
            [ simplify_eq/=;
              repeat match goal with
                     | H : Forall _ (_ :: _) |- _ =>
                         apply Forall_cons in H as [[? ->] H]
                     end;
              by rewrite Hkey
            | simplify_eq/= ]).
Qed.

Lemma script_misconfigured_witness :
  Script.script Hosts.no_env_file = ([], Raise OtherException)
  /\ Script.script Hosts.no_password =
     ([ConfigRead "PMA_BASE_URL"; ConfigRead "PMA_USER_NAME";
       ConfigRead "PMA_PASSWORD"],
      Raise OtherException).
Proof.
  split.
  - apply (proj1 (script_misconfigured Hosts.no_env_file)). reflexivity.
  - apply (proj2 (script_misconfigured Hosts.no_password) eq_refl
                 ["PMA_BASE_URL"; "PMA_USER_NAME"] "PMA_PASSWORD"
                 ["PMA_DB_NAME"; "PMA_TABLE_NAME"] OtherException).
    + reflexivity.
    + repeat constructor; by eexists.
    + reflexivity.
Defined.

(** X12. When the five values are read and setting up the log file fails
    in the constructor, [run] is never started: a session has been
    created, but no request is made and the session is not closed. An
    exception that derives from [Exception] is logged at critical severity
    by the script, which then ends normally; any other is raised. *)
Theorem script_construction_fails (h : host)
        (base user pass db table : string) (e : exn) :
  repository_env h = None ->
  config h "PMA_BASE_URL" = inr base ->
  config h "PMA_USER_NAME" = inr user ->
  config h "PMA_PASSWORD" = inr pass ->
  config h "PMA_DB_NAME" = inr db ->
  config h "PMA_TABLE_NAME" = inr table ->
  logging_basicConfig h = Some e ->
  Script.script h =
  if is_Exception e
  then ((ConfigRead <$> Script.config_keys)
          ++ [SessionCreated; TopLevelCritical e],
        Return tt)
  else ((ConfigRead <$> Script.config_keys) ++ [SessionCreated], Raise e).
Proof.
  intros Henv Hbase Huser Hpass Hdb Htable Hlog.
  rewrite (script_configured h base user pass db table) by done.
  rewrite (main_handled_logging_fails _ _ _ _ _ _ _ Hlog).
  by destruct (is_Exception e).
Qed.

Lemma script_construction_fails_witness :
  Script.script Hosts.no_log_file =
  ([ConfigRead "PMA_BASE_URL"; ConfigRead "PMA_USER_NAME";
    ConfigRead "PMA_PASSWORD"; ConfigRead "PMA_DB_NAME";
    ConfigRead "PMA_TABLE_NAME"; SessionCreated;
    TopLevelCritical OtherException],
   Return tt).
Proof.
  rewrite (script_construction_fails Hosts.no_log_file
             "http://pma.test/" "root" "secret" "shop" "users"
             OtherException); reflexivity.
Defined.

(** X13. When the five values are read and the constructor succeeds, the
    script runs the scraper built from them: base URL, user name,
    password, database and table come from the keys PMA_BASE_URL,
    PMA_USER_NAME, PMA_PASSWORD, PMA_DB_NAME and PMA_TABLE_NAME, no value
    being checked or changed. The effects of the script are the five
    reads, the construction, and then exactly the effects of [run]; it
    ends as [run] ends, and its own critical log is never written. *)
Theorem script_runs_scraper (h : host) (base user pass db table : string) :
  repository_env h = None ->
  config h "PMA_BASE_URL" = inr base ->
  config h "PMA_USER_NAME" = inr user ->
  config h "PMA_PASSWORD" = inr pass ->
  config h "PMA_DB_NAME" = inr db ->
  config h "PMA_TABLE_NAME" = inr table ->
  logging_basicConfig h = None ->
  Script.script h =
  ((ConfigRead <$> Script.config_keys)
     ++ [SessionCreated; LoggingConfigured; SetupLog INFO SessionConfigured]
     ++ (ScraperEvent <$>
           trace (Scraper.run
                    {| base_url := base; username := user;
                       password := pass; db_name := db;
                       table_name := table |}
                    (session_world h))),
   result (Scraper.run
             {| base_url := base; username := user; password := pass;
                db_name := db; table_name := table |}
             (session_world h))).
Proof.
  intros Henv Hbase Huser Hpass Hdb Htable Hlog.
  rewrite (script_configured h base user pass db table) by done.
  by rewrite (main_handled_constructed _ _ _ _ _ _ Hlog).
Qed.

Lemma script_runs_scraper_witness :
  Script.script Hosts.configured =
  ([ConfigRead "PMA_BASE_URL"; ConfigRead "PMA_USER_NAME";
    ConfigRead "PMA_PASSWORD"; ConfigRead "PMA_DB_NAME";
    ConfigRead "PMA_TABLE_NAME"; SessionCreated; LoggingConfigured;
    SetupLog INFO SessionConfigured]
     ++ (ScraperEvent <$> trace (Scraper.run Samples.self Samples.happy)),
   Return tt).
Proof.
  rewrite (script_runs_scraper Hosts.configured
             "http://pma.test/" "root" "secret" "shop" "users");
    reflexivity.
Defined.

(** X14. Once the five values are read, the script never ends with an
    exception that derives from [Exception]: it ends normally, or with an
    exception outside that class. *)
Theorem script_raises_no_Exception (h : host)
        (base user pass db table : string) :
  repository_env h = None ->
  config h "PMA_BASE_URL" = inr base ->
  config h "PMA_USER_NAME" = inr user ->
  config h "PMA_PASSWORD" = inr pass ->
  config h "PMA_DB_NAME" = inr db ->
  config h "PMA_TABLE_NAME" = inr table ->
  p_result (Script.script h) = Return tt
  \/ exists e, p_result (Script.script h) = Raise e
               /\ is_Exception e = false.
Proof.
  intros Henv Hbase Huser Hpass Hdb Htable.
  rewrite (script_configured h base user pass db table) by done.
  cbn [p_result snd].
  destruct (logging_basicConfig h) as [e|] eqn:Hlog.
  - rewrite (main_handled_logging_fails _ _ _ _ _ _ _ Hlog).
    destruct (is_Exception e) eqn:He; [by left|right; eauto].
  - rewrite (main_handled_constructed _ _ _ _ _ _ Hlog).
    apply run_result_cases.
Qed.

Lemma script_raises_no_Exception_witness :
  p_result (Script.script Hosts.no_log_file) = Return tt
  \/ exists e, p_result (Script.script Hosts.no_log_file) = Raise e
               /\ is_Exception e = false.
Proof.
  apply (script_raises_no_Exception Hosts.no_log_file
           "http://pma.test/" "root" "secret" "shop" "users");
    reflexivity.
Defined.

(** ** How a failed fetch of the login form is logged *)

(** X15. [_get_login_form_data] fails in four ways and no other: the
    request raises, the status is rejected, the parser rejects the markup,
    or the page holds no login form. Each failure is raised to the caller
    after the log of one [except] clause only, the first whose class fits:
    a rejected status or another request exception is logged as a request
    failure, any other exception deriving from [Exception] (the parser's
    among them, whatever the page holds) as unexpected, and an exception
    outside that class is not logged. A missing login form is logged
    twice, once where it is detected and once as unexpected, and raised as
    a [ValueError]. No failure is followed by a second request. *)
Theorem get_login_form_data_failures (self : scraper) (w : world) :
  (forall e,
      session_get w (Scraper.login_url self) = inl e ->
      Scraper._get_login_form_data self w =
      ([Log INFO FetchingLoginPage; Get (Scraper.login_url self)]
         ++ (if is_RequestException e
             then [Log ERROR (LoginFormRequestFailed e)]
             else if is_Exception e
                  then [Log ERROR (LoginFormUnexpected e)]
                  else []),
       Raise e))
  /\ (forall r,
         session_get w (Scraper.login_url self) = inr r ->
         ~ status_ok r ->
         Scraper._get_login_form_data self w =
         ([Log INFO FetchingLoginPage; Get (Scraper.login_url self);
           Log ERROR (LoginFormRequestFailed (HTTPError (status_code r)))],
          Raise (HTTPError (status_code r))))
  /\ (forall r,
         session_get w (Scraper.login_url self) = inr r ->
         status_ok r ->
         BeautifulSoup w (text r) = None ->
         Scraper._get_login_form_data self w =
         ([Log INFO FetchingLoginPage; Get (Scraper.login_url self);
           Log ERROR (LoginFormUnexpected ParserRejectedMarkup)],
          Raise ParserRejectedMarkup))
  /\ (forall r soup,
         session_get w (Scraper.login_url self) = inr r ->
         status_ok r ->
         BeautifulSoup w (text r) = Some soup ->
         Soup.find soup "form" [("id", "login_form")] = None ->
         Scraper._get_login_form_data self w =
         ([Log INFO FetchingLoginPage; Get (Scraper.login_url self);
           Log ERROR LoginFormMissing;
           Log ERROR (LoginFormUnexpected ValueError)],
          Raise ValueError))
  /\ (forall e,
         result (Scraper._get_login_form_data self w) = Raise e ->
         session_get w (Scraper.login_url self) = inl e
         \/ (exists r,
                session_get w (Scraper.login_url self) = inr r
                /\ ~ status_ok r /\ e = HTTPError (status_code r))
         \/ (exists r,
                session_get w (Scraper.login_url self) = inr r
                /\ status_ok r /\ BeautifulSoup w (text r) = None
                /\ e = ParserRejectedMarkup)
         \/ (exists r soup,
                session_get w (Scraper.login_url self) = inr r
                /\ status_ok r /\ BeautifulSoup w (text r) = Some soup
                /\ Soup.find soup "form" [("id", "login_form")] = None
                /\ e = ValueError)).
Proof.
  split; [|split; [|split; [|split]]].
  - intros e Hget. unfold Scraper._get_login_form_data, get. rewrite Hget.
    by destruct e.
  - intros r Hget Hbad. unfold status_ok in Hbad.
    apply not_false_is_true in Hbad.
    unfold Scraper._get_login_form_data, get. rewrite Hget. cbn.
    unfold raise_for_status. by rewrite Hbad.
  - apply get_login_form_data_markup_rejected.
  - apply get_login_form_data_no_form.
  - intros e.
    destruct (session_get w (Scraper.login_url self)) as [e'|r] eqn:Hget.
    { rewrite (get_login_form_data_get_fails _ _ _ Hget).
      intros [= <-]. by left. }
    destruct (decide (status_ok r)) as [Hok|Hbad].
    2: { rewrite (get_login_form_data_bad_status _ _ _ Hget Hbad).
         intros [= <-]. right. left. by exists r. }
    destruct (BeautifulSoup w (text r)) as [soup|] eqn:Hsoup.
    2: { rewrite (get_login_form_data_markup_rejected _ _ _ Hget Hok Hsoup).
         intros [= <-]. right. right. left. by exists r. }
    destruct (Soup.find soup "form" [("id", "login_form")])
      as [form|] eqn:Hform.
    + by rewrite (get_login_form_data_found _ _ _ _ _ Hget Hok Hsoup Hform).
    + rewrite (get_login_form_data_no_form _ _ _ _ Hget Hok Hsoup Hform).
      intros [= <-]. right. right. right. by exists r, soup.
Qed.

Lemma get_login_form_data_failures_witness :
  Scraper._get_login_form_data Samples.self Samples.offline =
  ([Log INFO FetchingLoginPage; Get "http://pma.test/index.php?route=/";
    Log ERROR (LoginFormRequestFailed RequestException)],
   Raise RequestException)
  /\ Scraper._get_login_form_data Samples.self Samples.login_rejected_markup =
     ([Log INFO FetchingLoginPage; Get "http://pma.test/index.php?route=/";
       Log ERROR (LoginFormUnexpected ParserRejectedMarkup)],
      Raise ParserRejectedMarkup)
  /\ Scraper._get_login_form_data Samples.self
       (Samples.serving (Samples.document []) Samples.results_page) =
     ([Log INFO FetchingLoginPage; Get "http://pma.test/index.php?route=/";
       Log ERROR LoginFormMissing;
       Log ERROR (LoginFormUnexpected ValueError)],
      Raise ValueError).
Proof.
  split; [|split].
  - apply (proj1 (get_login_form_data_failures Samples.self Samples.offline)
                 RequestException).
    reflexivity.
  - destruct (get_login_form_data_failures Samples.self
                                           Samples.login_rejected_markup)
      as (_ & _ & Hmarkup & _).
    apply (Hmarkup {| status_code := 200; text := "login" |}); reflexivity.
  - destruct (get_login_form_data_failures Samples.self
                (Samples.serving (Samples.document [])
                                 Samples.results_page))
      as (_ & _ & _ & Hform & _).
    apply (Hform {| status_code := 200; text := "login" |}
                 (Samples.document []));
      reflexivity.
Defined.
